(** * Model store of the audio-separation toolkit: [src/utils/get_models.py]

    A shallow embedding of the four operations of the module
    ([download_model], [model_exists_in_package], [get_model_path],
    [download_all_models]) over an explicit world: a POSIX directory tree,
    a network, the list of requests made, and the logger's output.
    Python exceptions are explicit results. *)

From Stdlib Require Import ZArith Ascii String List Bool Lia.
From stdpp Require Import base option list strings gmap fin_maps.

Local Open Scope string_scope.
Local Open Scope list_scope.

(** ** Python strings and [posixpath] *)

Module PyStr.

(** [s.split(sep)] for a one-character separator: never empty. *)
Fixpoint split_on (sep : ascii) (s : string) : list string :=
  match s with
  | EmptyString => [ "" ]
  | String c s' =>
      if Ascii.eqb c sep then "" :: split_on sep s'
      else match split_on sep s' with
           | [] => [ String c "" ]
           | h :: t => String c h :: t
           end
  end.

(** [l[0]] and [l[-1]] on the result of a split (which is never empty). *)
Definition first_item (l : list string) : string := List.hd "" l.
Definition last_item (l : list string) : string := List.last l "".

Definition startswith (s pre : string) : bool := String.prefix pre s.

(** [s.endswith(suf)] *)
Fixpoint endswith (s suf : string) : bool :=
  String.eqb s suf
  || match s with
     | EmptyString => false
     | String _ s' => endswith s' suf
     end.

(** [s.endswith((a, b, ...))] *)
Definition endswith_any (s : string) (sufs : list string) : bool :=
  existsb (endswith s) sufs.

(** [s.rfind(c)]: index of the last occurrence of [c], or -1. *)
Fixpoint rfind_from (c : ascii) (s : string) (i last : Z) : Z :=
  match s with
  | EmptyString => last
  | String d s' => rfind_from c s' (i + 1) (if Ascii.eqb d c then i else last)
  end.

Definition rfind (c : ascii) (s : string) : Z := rfind_from c s 0 (-1).

(** [p[:i]] and [p[i:]] for [0 <= i]. *)
Definition slice_to (p : string) (i : Z) : string :=
  String.substring 0 (Z.to_nat i) p.
Definition slice_from (p : string) (i : Z) : string :=
  String.substring (Z.to_nat i) (String.length p - Z.to_nat i) p.

(** The [while filenameIndex < dotIndex] loop of [genericpath._splitext];
    [n] counts the iterations left, [dotIndex - filenameIndex]. *)
Fixpoint splitext_scan (p : string) (filenameIndex dotIndex : Z) (n : nat)
  : string * string :=
  match n with
  | O => (p, "")
  | S n' =>
      match String.get (Z.to_nat filenameIndex) p with
      | Some "."%char => splitext_scan p (filenameIndex + 1) dotIndex n'
      | _ => (slice_to p dotIndex, slice_from p dotIndex)
      end
  end.

(** [os.path.splitext] (posixpath: sep "/", no altsep, extsep "."). *)
Definition splitext (p : string) : string * string :=
  let sepIndex := rfind "/" p in
  let dotIndex := rfind "." p in
  if (dotIndex >? sepIndex)%Z
  then splitext_scan p (sepIndex + 1) dotIndex
         (Z.to_nat (dotIndex - (sepIndex + 1)))
  else (p, "").

(** One step of [posixpath.join]'s loop over the later components. *)
Definition join_step (path b : string) : string :=
  if startswith b "/" then b
  else if String.eqb path "" || endswith path "/" then path ++ b
  else path ++ "/" ++ b.

(** [os.path.join(a, *p)] *)
Definition join (a : string) (p : list string) : string :=
  fold_left join_step p a.

End PyStr.

Import PyStr.

Arguments join : simpl never.
Arguments endswith_any : simpl never.

(** ** What [urllib] takes for a URL

    [urllib.request.Request] unwraps the URL, cuts its fragment and asks
    for a type (scheme); without one it raises ValueError before anything
    is requested. Characters are code points below 256. *)

Module Urllib.

(** The white space of [str.strip()]. *)
Definition is_space (c : ascii) : bool :=
  let n := nat_of_ascii c in
  ((9 <=? n) && (n <=? 13) || (28 <=? n) && (n <=? 32)
   || (n =? 133) || (n =? 160))%nat.

Fixpoint lstrip (s : string) : string :=
  match s with
  | EmptyString => ""
  | String c s' => if is_space c then lstrip s' else s
  end.

Fixpoint rstrip (s : string) : string :=
  match s with
  | EmptyString => ""
  | String c s' =>
      match rstrip s' with
      | EmptyString => if is_space c then "" else String c ""
      | r => String c r
      end
  end.

(** [s.strip()] *)
Definition strip (s : string) : string := rstrip (lstrip s).

(** [urllib.parse.unwrap] *)
Definition unwrap (url : string) : string :=
  let url := strip url in
  let url :=
    if startswith url "<" && endswith url ">"
    then strip (String.substring 1 (String.length url - 2) url)
    else url in
  if startswith url "URL:" then strip (slice_from url 4) else url.

(** The first component of [urllib.parse._splittag]: the URL up to its
    last ["#"], the whole URL if it has none. *)
Definition without_tag (url : string) : string :=
  let i := rfind "#" url in
  if (0 <=? i)%Z then slice_to url i else url.

(** Whether a colon comes before any separator. *)
Fixpoint colon_first (s : string) : bool :=
  match s with
  | EmptyString => false
  | String c s' =>
      if Ascii.eqb c ":" then true
      else if Ascii.eqb c "/" then false
      else colon_first s'
  end.

(** Whether [urllib.parse._splittype] finds a type: the URL starts with
    one or more characters other than a colon and a separator, and then a
    colon. *)
Definition has_type (url : string) : bool :=
  match url with
  | EmptyString => false
  | String c _ =>
      if Ascii.eqb c ":" || Ascii.eqb c "/" then false else colon_first url
  end.

(** Whether [Request(url)] is made without ValueError. *)
Definition has_scheme (url : string) : bool :=
  has_type (without_tag (unwrap url)).

End Urllib.

Import Urllib.

(** ** Exceptions, manifests and the world *)

(** The Python exceptions the module can meet. *)
Inductive exn : Type :=
| KeyError (key : string)
| NameError (name : string)
| FileNotFoundError
| NotADirectoryError
| IsADirectoryError
| FileExistsError
| URLError
| ContentTooShortError
| ValueError
| JSONDecodeError
| RecursionError.

Inductive result (A : Type) : Type :=
| Ok (a : A)
| Raise (e : exn).
Arguments Ok {A} a.
Arguments Raise {A} e.

(** A Python [dict] with string keys, in insertion order. *)
Abbreviation dict V := (list (string * V)) (only parsing).

(** One manifest entry, [{"model_path": [url, ...], ...}]. *)
Record model_data : Type := mk_model_data {
  md_model_path : list string;
  md_other : list (string * string)
}.

(** [{arch: {name: {model_path: [url, ...], ...}}}] *)
Definition manifest : Type := dict (dict model_data).

(** What a regular file holds: a JSON document that parses to a manifest,
    or anything else. *)
Inductive content : Type :=
| Json (doc : manifest)
| Bytes (data : string).

Inductive node : Type :=
| File (c : content)
| Dir.

(** What one HTTP GET yields. *)
Inductive response : Type :=
| Fetched (c : content)
| Truncated (c : content)
| Unreachable.

Inductive level : Type := INFO | ERROR.

(** The f-strings handed to the logger, by their interpolated values. *)
Inductive message : Type :=
| MsgNoModelPath (model_name : string)
| MsgAlreadyExists (model_name save_path : string)
| MsgDownloaded (model_name : string) (model_path : list string)
| MsgFailed (model_name : string) (model_path : list string) (e : exn).

(** The directory tree is keyed by canonical absolute paths (the list of
    names from the root); the root itself is always a directory. The
    requests are the URLs urllib accepted and went on to open, in order;
    the network answers a request by the URL and the requests before. *)
Record world : Type := mk_world {
  w_fs : gmap (list string) node;
  w_cwd : list string;
  w_net : list string -> string -> response;
  w_requests : list string;
  w_log : list (level * message)
}.

Definition set_fs (t : gmap (list string) node) (w : world) : world :=
  mk_world t (w_cwd w) (w_net w) (w_requests w) (w_log w).
Definition add_request (url : string) (w : world) : world :=
  mk_world (w_fs w) (w_cwd w) (w_net w) (w_requests w ++ [url]) (w_log w).
Definition add_log (r : level * message) (w : world) : world :=
  mk_world (w_fs w) (w_cwd w) (w_net w) (w_requests w) (w_log w ++ [r]).

(** ** The POSIX file system *)

Module Posix.

Definition kind_at (t : gmap (list string) node) (c : list string)
  : option node :=
  match c with
  | [] => Some Dir
  | _ => t !! c
  end.

(** Path resolution, one component at a time, from the canonical
    directory [cur]. *)
Fixpoint walk (t : gmap (list string) node) (cur : list string)
  (cs : list string) : result (list string) :=
  match cs with
  | [] => Ok cur
  | c :: cs' =>
      match kind_at t cur with
      | Some Dir =>
          if String.eqb c "" || String.eqb c "." then walk t cur cs'
          else if String.eqb c ".." then walk t (removelast cur) cs'
          else match kind_at t (cur ++ [c]) with
               | Some _ => walk t (cur ++ [c]) cs'
               | None => Raise FileNotFoundError
               end
      | Some (File _) => Raise NotADirectoryError
      | None => Raise FileNotFoundError
      end
  end.

Definition start_of (w : world) (path : string) : list string :=
  if startswith path "/" then [] else w_cwd w.

Definition resolve (w : world) (path : string) : result (list string) :=
  if String.eqb path "" then Raise FileNotFoundError
  else walk (w_fs w) (start_of w path) (split_on "/" path).

(** [os.path.exists], [os.path.isfile], [os.path.isdir]: never raise. *)
Definition path_exists (w : world) (path : string) : bool :=
  match resolve w path with
  | Ok _ => true
  | Raise _ => false
  end.

Definition isfile (w : world) (path : string) : bool :=
  match resolve w path with
  | Ok c => match kind_at (w_fs w) c with
            | Some (File _) => true
            | _ => false
            end
  | Raise _ => false
  end.

Definition isdir (w : world) (path : string) : bool :=
  match resolve w path with
  | Ok c => match kind_at (w_fs w) c with
            | Some Dir => true
            | _ => false
            end
  | Raise _ => false
  end.

Fixpoint strip_prefix (p k : list string) : option (list string) :=
  match p, k with
  | [], _ => Some k
  | a :: p', b :: k' => if String.eqb a b then strip_prefix p' k' else None
  | _ :: _, [] => None
  end.

Definition child_name (c k : list string) : option string :=
  match strip_prefix c k with
  | Some [n] => Some n
  | _ => None
  end.

(** The entries of the directory [c], in the map's order. *)
Definition entries (t : gmap (list string) node) (c : list string)
  : list string :=
  omap (fun kv => child_name c (fst kv)) (map_to_list t).

(** [os.listdir] *)
Definition listdir (w : world) (path : string) : result (list string) :=
  match resolve w path with
  | Ok c => match kind_at (w_fs w) c with
            | Some Dir => Ok (entries (w_fs w) c)
            | Some (File _) => Raise NotADirectoryError
            | None => Raise FileNotFoundError
            end
  | Raise e => Raise e
  end.

(** Resolution of the directory part of [cs], which must be a directory. *)
Definition walk_parent (w : world) (path : string) (cs : list string)
  : result (list string) :=
  match walk (w_fs w) (start_of w path) (removelast cs) with
  | Ok cp => match kind_at (w_fs w) cp with
             | Some Dir => Ok cp
             | Some (File _) => Raise NotADirectoryError
             | None => Raise FileNotFoundError
             end
  | Raise e => Raise e
  end.

Definition is_dot (c : string) : bool :=
  String.eqb c "" || String.eqb c "." || String.eqb c "..".

(** [open(path, "wb")] followed by writing [c]: creates or truncates. *)
Definition write_file (w : world) (path : string) (c : content)
  : result (gmap (list string) node) :=
  if String.eqb path "" then Raise FileNotFoundError
  else
    let cs := split_on "/" path in
    match walk_parent w path cs with
    | Ok cp =>
        let name := last_item cs in
        if is_dot name then Raise IsADirectoryError
        else match kind_at (w_fs w) (cp ++ [name]) with
             | Some Dir => Raise IsADirectoryError
             | _ => Ok (<[cp ++ [name] := File c]> (w_fs w))
             end
    | Raise e => Raise e
    end.

(** [json.load(open(path, "r"))] *)
Definition read_json (w : world) (path : string) : result manifest :=
  match resolve w path with
  | Ok c => match kind_at (w_fs w) c with
            | Some (File (Json doc)) => Ok doc
            | Some (File (Bytes _)) => Raise JSONDecodeError
            | Some Dir => Raise IsADirectoryError
            | None => Raise FileNotFoundError
            end
  | Raise e => Raise e
  end.

Fixpoint drop_trailing_empty (cs : list string) : list string :=
  match cs with
  | [] => []
  | c :: cs' =>
      match drop_trailing_empty cs' with
      | [] => if String.eqb c "" then [] else [c]
      | r => c :: r
      end
  end.

(** [os.mkdir]: trailing slashes are allowed, the name must be new. *)
Definition mkdir (w : world) (path : string)
  : result (gmap (list string) node) :=
  if String.eqb path "" then Raise FileNotFoundError
  else
    match drop_trailing_empty (split_on "/" path) with
    | [] => Raise FileExistsError
    | cs =>
        match walk_parent w path cs with
        | Ok cp =>
            let name := last_item cs in
            if is_dot name then Raise FileExistsError
            else match kind_at (w_fs w) (cp ++ [name]) with
                 | Some _ => Raise FileExistsError
                 | None => Ok (<[cp ++ [name] := Dir]> (w_fs w))
                 end
        | Raise e => Raise e
        end
    end.

(** [s.rstrip("/")] *)
Fixpoint rstrip_sep (s : string) : string :=
  match s with
  | EmptyString => ""
  | String c s' =>
      match rstrip_sep s' with
      | EmptyString => if Ascii.eqb c "/" then "" else String c ""
      | r => String c r
      end
  end.

(** [posixpath.split] *)
Definition split (p : string) : string * string :=
  let i := (rfind "/" p + 1)%Z in
  let head := slice_to p i in
  let tail := slice_from p i in
  if String.eqb (rstrip_sep head) "" then (head, tail)
  else (rstrip_sep head, tail).

(** [os.makedirs(name)] with [exist_ok=False]; [fuel] bounds the
    recursion on the ever shorter head. Directories made before an
    error stay, so the tree is returned on both outcomes. *)
Fixpoint makedirs_rec (fuel : nat) (w : world) (name : string)
  : result unit * gmap (list string) node :=
  match fuel with
  | O => (Raise RecursionError, w_fs w)
  | S fuel' =>
      let '(head, tail) :=
        let ht := split name in
        if String.eqb (snd ht) "" then split (fst ht) else ht in
      let final (t : gmap (list string) node) :=
        match mkdir (set_fs t w) name with
        | Ok t' => (Ok tt, t')
        | Raise e => (Raise e, t)
        end in
      if negb (String.eqb head "") && negb (String.eqb tail "")
         && negb (path_exists w head)
      then
        match makedirs_rec fuel' w head with
        | (Ok _, t) | (Raise FileExistsError, t) =>
            if String.eqb tail "." then (Ok tt, t) else final t
        | (Raise e, t) => (Raise e, t)
        end
      else final (w_fs w)
  end.

Definition makedirs (w : world) (name : string)
  : result unit * gmap (list string) node :=
  makedirs_rec (S (String.length name)) w name.

End Posix.

Import Posix.

(** ** Effects: a state monad over the world, with exceptions *)

Definition M (A : Type) : Type := world -> result A * world.

Definition ret {A : Type} (a : A) : M A := fun w => (Ok a, w).

Definition raise {A : Type} (e : exn) : M A := fun w => (Raise e, w).

Definition bind {A B : Type} (m : M A) (k : A -> M B) : M B :=
  fun w =>
    match m w with
    | (Ok a, w') => k a w'
    | (Raise e, w') => (Raise e, w')
    end.

(** [try: m  except Exception as e: h e] *)
Definition try_except {A : Type} (m : M A) (h : exn -> M A) : M A :=
  fun w =>
    match m w with
    | (Ok a, w') => (Ok a, w')
    | (Raise e, w') => h e w'
    end.

Declare Scope py_scope.
Delimit Scope py_scope with py.
Notation "x <- m ;; k" := (bind m (fun x => k))
  (at level 100, m at next level, right associativity) : py_scope.
Notation "m ;;; k" := (bind m (fun _ => k))
  (at level 100, right associativity) : py_scope.
Local Open Scope py_scope.

Definition lift_result {A : Type} (r : world -> result A) : M A :=
  fun w => (r w, w).

Definition when (b : bool) (m : M unit) : M unit :=
  if b then m else ret tt.

(** [logger.info(msg)] / [logger.error(msg)] behind [if logger:]. *)
Definition log_if (logger : bool) (l : level) (msg : message) : M unit :=
  when logger (fun w => (Ok tt, add_log (l, msg) w)).

Definition os_makedirs (name : string) : M unit :=
  fun w => let '(r, t) := makedirs w name in (r, set_fs t w).

(** [urllib.request.urlretrieve(url, filename)]: a URL without a type
    raises ValueError and nothing is requested; else the request is made
    first, then the local file is opened and written; a short read leaves
    what was written and raises. *)
Definition urlretrieve (url filename : string) : M unit :=
  fun w =>
    if negb (has_scheme url) then (Raise ValueError, w)
    else
      let w1 := add_request url w in
      match w_net w (w_requests w) url with
      | Unreachable => (Raise URLError, w1)
      | Fetched c =>
          match write_file w1 filename c with
          | Ok t => (Ok tt, set_fs t w1)
          | Raise e => (Raise e, w1)
          end
      | Truncated c =>
          match write_file w1 filename c with
          | Ok t => (Raise ContentTooShortError, set_fs t w1)
          | Raise e => (Raise e, w1)
          end
      end.

(** [d[k]] *)
Fixpoint dict_get {V : Type} (d : dict V) (k : string) : result V :=
  match d with
  | [] => Raise (KeyError k)
  | (k', v) :: d' => if String.eqb k' k then Ok v else dict_get d' k
  end.

(** [d[k] = v] *)
Fixpoint dict_set {V : Type} (k : string) (v : V) (d : dict V) : dict V :=
  match d with
  | [] => [(k, v)]
  | (k', v') :: d' =>
      if String.eqb k' k then (k', v) :: d' else (k', v') :: dict_set k v d'
  end.

Definition keys {V : Type} (d : dict V) : list string := map fst d.

(** ** The module *)

Section ModelStore.

(** [uvr_path = Path(__file__).parent.parent] *)
Variable uvr_path : string.

Definition models_json_path : string :=
  join uvr_path ["models_dir"; "models.json"].

(** [os.path.join(uvr_path, "models_dir", model_arch, "weights", model_name)] *)
Definition weights_path (model_arch model_name : string) : string :=
  join uvr_path ["models_dir"; model_arch; "weights"; model_name].

(** Lines 72-73: the name up to its first dot. *)
Definition strip_name (model_name : string) : string :=
  if (1 <? List.length (split_on "." model_name))%nat
  then first_item (split_on "." model_name)
  else model_name.

(** Lines 79-82: [false] at the first listed file that is not there. *)
Fixpoint files_present (w : world) (save_path : string)
  (files : list string) : bool :=
  match files with
  | [] => true
  | file :: rest =>
      if negb (isfile w (join save_path [file])) then false
      else files_present w save_path rest
  end.

Definition model_exists_in_package (model_name model_arch : string)
  (save_path : option string) (files : option (list string)) (w : world)
  : bool :=
  let model_name := strip_name model_name in
  let save_path :=
    match save_path with
    | None => weights_path model_arch model_name
    | Some p => p
    end in
  let listed :=
    match files with
    | Some fl => files_present w save_path fl
    | None => true
    end in
  if listed then path_exists w save_path else false.

(** The tuple of line 113. *)
Definition model_extensions : list string := [".onnx"; ".pth"; ".ckpt"].

(** Lines 111-114: the first entry with a model extension. *)
Fixpoint first_model_file (subdir : string) (files : list string)
  : option string :=
  match files with
  | [] => None
  | file :: rest =>
      if endswith_any file model_extensions
      then Some (join subdir [file])
      else first_model_file subdir rest
  end.

(** Lines 119-123: the first regular file whose base name is the name. *)
Fixpoint scan_dir (w : world) (model_name model_dir : string)
  (files : list string) : option string :=
  match files with
  | [] => None
  | file :: rest =>
      if isfile w (join model_dir [file])
         && String.eqb (fst (splitext file)) model_name
      then Some (join model_dir [file])
      else scan_dir w model_name model_dir rest
  end.

Definition get_model_path (model_name model_dir : string) (w : world)
  : result (option string) :=
  if negb (path_exists w model_dir) then Ok None
  else
    let '(base_name, extension) := splitext model_name in
    if negb (String.eqb extension "") then
      let path := join model_dir [model_name] in
      if path_exists w path && isfile w path then Ok (Some path)
      else Ok None
    else
      let potential_model_subdir := join model_dir [model_name] in
      let in_subdir :=
        if isdir w potential_model_subdir then
          match listdir w potential_model_subdir with
          | Ok files => Ok (first_model_file potential_model_subdir files)
          | Raise e => Raise e
          end
        else Ok None in
      match in_subdir with
      | Ok (Some path) => Ok (Some path)
      | Ok None =>
          match listdir w model_dir with
          | Ok files => Ok (scan_dir w model_name model_dir files)
          | Raise e => Raise e
          end
      | Raise e => Raise e
      end.

(** Lines 23-28 *)
Definition resolve_model_path (model_name model_arch : string)
  (model_path : option (list string)) (logger : bool) : M (list string) :=
  match model_path with
  | Some urls => ret urls
  | None =>
      log_if logger ERROR (MsgNoModelPath model_name) ;;;
      models <- lift_result (fun w => read_json w models_json_path) ;;
      by_name <- lift_result (fun _ => dict_get models model_arch) ;;
      data <- lift_result (fun _ => dict_get by_name model_name) ;;
      ret (md_model_path data)
  end.

(** Lines 33-34 *)
Definition ensure_dir (save_path : string) : M unit :=
  present <- lift_result (fun w => Ok (path_exists w save_path)) ;;
  if negb present then os_makedirs save_path else ret tt.

(** Lines 44-48: one file after the other. *)
Fixpoint download_files (model_name : string) (model_path : list string)
  (save_path : string) (logger : bool) (todo : list (string * string))
  : M unit :=
  match todo with
  | [] => ret tt
  | (file_name, path) :: rest =>
      let local_file_path := join save_path [file_name] in
      urlretrieve path local_file_path ;;;
      log_if logger INFO (MsgDownloaded model_name model_path) ;;;
      download_files model_name model_path save_path logger rest
  end.

Definition file_names (model_path : list string) : list string :=
  map (fun path => last_item (split_on "/" path)) model_path.

Definition download_model (model_name model_arch : string)
  (model_path : option (list string)) (save_path : option string)
  (logger : bool) : M (option string) :=
  model_path <- resolve_model_path model_name model_arch model_path logger ;;
  let save_path :=
    match save_path with
    | None => weights_path model_arch model_name
    | Some p => p
    end in
  ensure_dir save_path ;;;
  let files := file_names model_path in
  found <- lift_result (fun w =>
    Ok (model_exists_in_package model_name model_arch None (Some files) w)) ;;
  if found then
    log_if logger INFO (MsgAlreadyExists model_name save_path) ;;;
    ret (Some save_path)
  else
    try_except
      (download_files model_name model_path save_path logger
         (combine files model_path) ;;;
       ret (Some save_path))
      (fun e =>
         log_if logger ERROR (MsgFailed model_name model_path e) ;;;
         ret None).

(** Lines 161-164: the models of one architecture. *)
Fixpoint download_arch (model_arch : string) (save_path : option string)
  (logger : bool) (models : dict model_data)
  (paths : dict (dict (option string))) : M (dict (dict (option string))) :=
  match models with
  | [] => ret paths
  | (model_name, model_data) :: rest =>
      let model_path := md_model_path model_data in
      model_path <- download_model model_name model_arch (Some model_path)
                      save_path logger ;;
      inner <- lift_result (fun _ => dict_get paths model_arch) ;;
      download_arch model_arch save_path logger rest
        (dict_set model_arch (dict_set model_name model_path inner) paths)
  end.

(** Lines 159-164 *)
Fixpoint download_archs (save_path : option string) (logger : bool)
  (items : manifest) (paths : dict (dict (option string)))
  : M (dict (dict (option string))) :=
  match items with
  | [] => ret paths
  | (model_arch, models) :: rest =>
      paths <- download_arch model_arch save_path logger models
                 (dict_set model_arch [] paths) ;;
      download_archs save_path logger rest paths
  end.

Definition download_all_models (models_json : option manifest)
  (save_path : option string) (logger : bool)
  : M (dict (dict (option string))) :=
  models_json <-
    match models_json with
    | Some m => ret m
    | None =>
        (* the f-string names [model_name], which is not bound here *)
        when logger (raise (NameError "model_name")) ;;;
        lift_result (fun w => read_json w models_json_path)
    end ;;
  download_archs save_path logger models_json [].

End ModelStore.

(** ** Vocabulary of the statements *)

Section Vocabulary.

Variable uvr_path : string.

(** The directory the lookup is made in. *)
Definition lookup_dir (model_name model_arch : string)
  (save_path : option string) : string :=
  match save_path with
  | None => weights_path uvr_path model_arch (strip_name model_name)
  | Some p => p
  end.

(** The directory the files are saved in (lines 30-31). *)
Definition target_dir (model_name model_arch : string)
  (save_path : option string) : string :=
  match save_path with
  | None => weights_path uvr_path model_arch model_name
  | Some p => p
  end.

(** What the logger, if there is one, adds to the world. *)
Definition logged (logger : bool) (r : level * message) (w : world) : world :=
  if logger then add_log r w else w.

(** The scan of the directory itself (lines 119-125). *)
Definition scan_result (model_name model_dir : string) (w : world)
  : result (option string) :=
  match listdir w model_dir with
  | Ok files => Ok (scan_dir w model_name model_dir files)
  | Raise e => Raise e
  end.

End Vocabulary.

(** [c] occurs in [s]. *)
Fixpoint has_char (c : ascii) (s : string) : bool :=
  match s with
  | EmptyString => false
  | String d s' => Ascii.eqb d c || has_char c s'
  end.

(** Two nodes of the same kind: both directories, or both regular files. *)
Definition same_kind (a b : node) : Prop :=
  match a, b with
  | Dir, Dir => True
  | File _, File _ => True
  | _, _ => False
  end.

(** Every node of [t] is in [t'], with its kind. *)
Definition grows (t t' : gmap (list string) node) : Prop :=
  forall k n, t !! k = Some n -> exists n', t' !! k = Some n' /\ same_kind n n'.

(** The world with its log replaced. *)
Definition set_log (l : list (level * message)) (w : world) : world :=
  mk_world (w_fs w) (w_cwd w) (w_net w) (w_requests w) l.

Section Collect.

Variables (uvr_path : string) (save_path : option string) (logger : bool).

(** The calls of lines 161-164 for one architecture, one after the other,
    each value kept under its model name. *)
Fixpoint collect_arch (model_arch : string) (models : dict model_data)
  : M (dict (option string)) :=
  match models with
  | [] => ret []
  | (model_name, model_data) :: rest =>
      path <- download_model uvr_path model_name model_arch
                (Some (md_model_path model_data)) save_path logger ;;
      others <- collect_arch model_arch rest ;;
      ret ((model_name, path) :: others)
  end.

(** The same over the architectures of the manifest. *)
Fixpoint collect_all (items : manifest) : M (dict (dict (option string))) :=
  match items with
  | [] => ret []
  | (model_arch, models) :: rest =>
      by_name <- collect_arch model_arch models ;;
      others <- collect_all rest ;;
      ret ((model_arch, by_name) :: others)
  end.

(** The download loop of a call was entered and raised. *)
Definition download_failed (model_name model_arch : string)
  (urls : list string) (w : world) : Prop :=
  let save := target_dir uvr_path model_name model_arch save_path in
  exists w1 e w2,
    ensure_dir save w = (Ok tt, w1)
    /\ model_exists_in_package uvr_path model_name model_arch None
         (Some (file_names urls)) w1 = false
    /\ download_files model_name urls save logger
         (combine (file_names urls) urls) w1 = (Raise e, w2).

End Collect.

(** ** Concrete worlds used by the examples *)

Module Examples.

Definition offline : list string -> string -> response :=
  fun _ _ => Unreachable.

(** A network that serves every URL but those under [http://down/]. *)
Definition online : list string -> string -> response :=
  fun _ url =>
    if startswith url "http://down/" then Unreachable
    else Fetched (Bytes url).

Definition world_of (t : gmap (list string) node) (cwd : list string)
  (net : list string -> string -> response) : world :=
  mk_world t cwd net [] [].

(** [/store/notes.txt], [/store/model/weights.onnx], [/store/flat.pth],
    and a regular file [/x.onnx] at the root. *)
Definition store_tree : gmap (list string) node :=
  {[ ["store"] := Dir;
     ["store"; "notes.txt"] := File (Bytes "n");
     ["store"; "model"] := Dir;
     ["store"; "model"; "weights.onnx"] := File (Bytes "w");
     ["store"; "flat.pth"] := File (Bytes "f");
     ["x.onnx"] := File (Bytes "x") ]}.

Definition store_world : world := world_of store_tree [] offline.

End Examples.

Module ManifestExample.

(** The manifest file of the installation at [/opt/uvr]. *)
Definition doc : manifest :=
  [("demucs", [("htdemucs", mk_model_data ["http://hub/htdemucs.th"] [])])].

Definition tree : gmap (list string) node :=
  {[ ["opt"] := Dir;
     ["opt"; "uvr"] := Dir;
     ["opt"; "uvr"; "models_dir"] := Dir;
     ["opt"; "uvr"; "models_dir"; "models.json"] := File (Json doc) ]}.

Definition installed : world := Examples.world_of tree [] Examples.online.

End ManifestExample.

Module FailingDownload.

Definition urls : list string :=
  ["http://hub/a.th"; "http://down/b.th"; "http://hub/c.th"].
Definition save : string := target_dir "/opt/uvr" "htdemucs" "demucs" None.
Definition start : world := ManifestExample.installed.
Definition prepared : world := snd (ensure_dir save start).
Definition first_done : world :=
  snd (download_files "htdemucs" urls save true
         [("a.th", "http://hub/a.th")] prepared).
Definition failed : world :=
  snd (urlretrieve "http://down/b.th" (join save ["b.th"]) first_done).

End FailingDownload.

Module Redownload.

Definition url : string := "http://hub/model.onnx".
Definition save : string := "/opt/uvr/models_dir/mdx/weights/model.onnx".

(** The world after a first, successful download of ["model.onnx"]. *)
Definition stored : world :=
  snd (download_model "/opt/uvr" "model.onnx" "mdx" (Some [url]) None false
         ManifestExample.installed).

(** [/store/flat.pth] is in place and the network is up. *)
Definition kept_elsewhere : world :=
  Examples.world_of Examples.store_tree [] Examples.online.

End Redownload.

Module FirstDot.

(** Only [.../weights/a.b] is there. *)
Definition with_a_b : world :=
  Examples.world_of
    {[ ["opt"] := Dir; ["opt"; "uvr"] := Dir;
       ["opt"; "uvr"; "models_dir"] := Dir;
       ["opt"; "uvr"; "models_dir"; "mdx"] := Dir;
       ["opt"; "uvr"; "models_dir"; "mdx"; "weights"] := Dir;
       ["opt"; "uvr"; "models_dir"; "mdx"; "weights"; "a.b"] := Dir ]}
    [] Examples.offline.

(** Only [.../weights/a] is there. *)
Definition with_a : world :=
  Examples.world_of
    {[ ["opt"] := Dir; ["opt"; "uvr"] := Dir;
       ["opt"; "uvr"; "models_dir"] := Dir;
       ["opt"; "uvr"; "models_dir"; "mdx"] := Dir;
       ["opt"; "uvr"; "models_dir"; "mdx"; "weights"] := Dir;
       ["opt"; "uvr"; "models_dir"; "mdx"; "weights"; "a"] := Dir ]}
    [] Examples.offline.

End FirstDot.

Module AllModelsExample.

Definition models_json : manifest :=
  [("demucs", [("htdemucs", mk_model_data ["http://hub/htdemucs.th"] []);
               ("broken", mk_model_data ["http://down/broken.th"] [])]);
   ("mdx", [("kim", mk_model_data ["http://hub/kim.onnx"] [])])].

Definition paths : dict (dict (option string)) :=
  [("demucs", [("htdemucs", Some "/opt/uvr/models_dir/demucs/weights/htdemucs");
               ("broken", None)]);
   ("mdx", [("kim", Some "/opt/uvr/models_dir/mdx/weights/kim")])].

End AllModelsExample.

Module SecondCall.

(** The world after a first download of model ["kim"]. *)
Definition stored : world :=
  snd (download_model "/opt/uvr" "kim" "mdx" (Some ["http://hub/kim.onnx"])
         None false ManifestExample.installed).

End SecondCall.

Module BlockedDirectory.

(** [/store/notes.txt] is a regular file: nothing can be made under it. *)
Definition save : string := "/store/notes.txt/kim".

Definition after : world :=
  snd (ensure_dir save Redownload.kept_elsewhere).

End BlockedDirectory.

Module BlockedArch.

(** [/opt/uvr/models_dir/mdx] is a regular file: the directories of the
    models of architecture ["mdx"] cannot be made. *)
Definition tree : gmap (list string) node :=
  {[ ["opt"] := Dir;
     ["opt"; "uvr"] := Dir;
     ["opt"; "uvr"; "models_dir"] := Dir;
     ["opt"; "uvr"; "models_dir"; "mdx"] := File (Bytes "m") ]}.

Definition start : world := Examples.world_of tree [] Examples.online.

Definition models_json : manifest :=
  [("demucs", [("htdemucs", mk_model_data ["http://hub/htdemucs.th"] [])]);
   ("mdx", [("kim", mk_model_data ["http://hub/kim.onnx"] [])]);
   ("vr", [("late", mk_model_data ["http://hub/late.pth"] [])])].

(** After the one model of ["demucs"]. *)
Definition first_done : world :=
  snd (download_model "/opt/uvr" "htdemucs" "demucs"
         (Some ["http://hub/htdemucs.th"]) None false start).

(** After the call for ["kim"], which raises. *)
Definition stopped : world :=
  snd (download_model "/opt/uvr" "kim" "mdx" (Some ["http://hub/kim.onnx"])
         None false first_done).

End BlockedArch.

Module EntryKinds.

(** [/store/m2] holds the directory [d.ckpt] and the regular file
    [w.pth]; [/store/m3] holds a directory [d.ckpt] only, beside the
    regular file [/store/m3.pth]. *)
Definition tree : gmap (list string) node :=
  {[ ["store"] := Dir;
     ["store"; "m2"] := Dir;
     ["store"; "m2"; "d.ckpt"] := Dir;
     ["store"; "m2"; "w.pth"] := File (Bytes "w");
     ["store"; "m3"] := Dir;
     ["store"; "m3"; "d.ckpt"] := Dir;
     ["store"; "m3.pth"] := File (Bytes "p") ]}.

Definition store : world := Examples.world_of tree [] Examples.offline.

End EntryKinds.

(** * Properties *)

(** ** Dictionaries *)

Lemma dict_get_cases {V : Type} (d : dict V) (k : string) :
  (exists v, dict_get d k = Ok v /\ In (k, v) d)
  \/ (dict_get d k = Raise (KeyError k) /\ ~ In k (keys d)).
Proof.
  induction d as [|[k' v'] d IH]; simpl.
  - right. split; [reflexivity | tauto].
  - destruct (String.eqb_spec k' k) as [->|Hne].
    + left. exists v'. split; [reflexivity | now left].
    + destruct IH as [(v & Hv & Hin)|[Hr Hnin]].
      * left. exists v. split; [exact Hv | now right].
      * right. split; [exact Hr | intros [H|H]; [now apply Hne | now apply Hnin]].
Qed.

Lemma dict_get_absent {V : Type} (d : dict V) (k : string) :
  ~ In k (keys d) -> dict_get d k = Raise (KeyError k).
Proof.
  intros Hnin. destruct (dict_get_cases d k) as [(v & _ & Hin)|[Hr _]]; [|exact Hr].
  exfalso. apply Hnin. unfold keys. apply in_map_iff. now exists (k, v).
Qed.

(** ** [model_exists_in_package] *)

Section ExistsFacts.

Variable uvr_path : string.

Lemma files_present_forallb (w : world) (dir : string) (files : list string) :
  files_present w dir files
  = forallb (fun file => isfile w (join dir [file])) files.
Proof.
  induction files as [|file rest IH]; simpl; [reflexivity|].
  rewrite IH. now destruct (isfile w (join dir [file])).
Qed.

Lemma model_exists_unfold (model_name model_arch : string)
  (save_path : option string) (files : list string) (w : world) :
  model_exists_in_package uvr_path model_name model_arch save_path
    (Some files) w
  = forallb (fun file =>
               isfile w (join (lookup_dir uvr_path model_name model_arch save_path)
                           [file])) files
    && path_exists w (lookup_dir uvr_path model_name model_arch save_path).
Proof.
  unfold model_exists_in_package, lookup_dir.
  rewrite files_present_forallb.
  destruct save_path; now destruct (forallb _ files).
Qed.

(** C8. With a file list, [model_exists_in_package] is true exactly when
    every listed file is a regular file in the looked-up directory and
    that directory exists; so one missing file makes it false whether or
    not the directory exists. Without a file list it is whether the
    directory path exists. *)
Theorem model_exists_file_list (model_name model_arch : string)
  (save_path : option string) (w : world) :
  let dir := lookup_dir uvr_path model_name model_arch save_path in
  (forall files file,
      In file files ->
      isfile w (join dir [file]) = false ->
      model_exists_in_package uvr_path model_name model_arch save_path
        (Some files) w = false)
  /\ (forall files,
        model_exists_in_package uvr_path model_name model_arch save_path
          (Some files) w = true
        <-> (forall file, In file files -> isfile w (join dir [file]) = true)
            /\ path_exists w dir = true)
  /\ model_exists_in_package uvr_path model_name model_arch save_path None w
     = path_exists w dir.
Proof.
  intros dir. split; [|split].
  - intros files file Hin Hmiss. rewrite model_exists_unfold. fold dir.
    apply andb_false_iff. left.
    apply not_true_is_false. intros Hall.
    rewrite forallb_forall in Hall. specialize (Hall file Hin).
    simpl in Hall, Hmiss. congruence.
  - intros files. rewrite model_exists_unfold. fold dir.
    rewrite andb_true_iff, forallb_forall. reflexivity.
  - unfold model_exists_in_package, dir, lookup_dir. now destruct save_path.
Qed.

End ExistsFacts.

(** The directory [/store] exists, yet a listed file that is missing makes
    the answer false. *)
Lemma model_exists_file_list_witness :
  path_exists Examples.store_world "/store" = true
  /\ model_exists_in_package "/opt/uvr" "m" "demucs" (Some "/store")
       (Some ["flat.pth"; "gone.pth"]) Examples.store_world = false.
Proof.
  split; [reflexivity|].
  apply (proj1 (model_exists_file_list "/opt/uvr" "m" "demucs" (Some "/store")
                  Examples.store_world) ["flat.pth"; "gone.pth"] "gone.pth").
  - simpl. tauto.
  - vm_compute. reflexivity.
Defined.

(** ** [download_model]: the manifest lookup *)

Lemma read_json_add_log (r : level * message) (w : world) (path : string) :
  read_json (add_log r w) path = read_json w path.
Proof. reflexivity. Qed.

(** C3. With no URLs supplied, a readable manifest and no entry for the
    architecture and model name in it, [download_model] raises [KeyError]
    (for the architecture or for the name): nothing is returned, nothing is
    downloaded, and only the logger's line, if any, was written. *)
Theorem download_model_missing_entry (uvr_path model_name model_arch : string)
  (save_path : option string) (logger : bool) (w : world) (doc : manifest) :
  read_json w (models_json_path uvr_path) = Ok doc ->
  (forall by_name, In (model_arch, by_name) doc -> ~ In model_name (keys by_name)) ->
  exists key,
    (key = model_arch \/ key = model_name)
    /\ download_model uvr_path model_name model_arch None save_path logger w
       = (Raise (KeyError key),
          if logger then add_log (ERROR, MsgNoModelPath model_name) w else w).
Proof.
  intros Hread Hno.
  unfold download_model, resolve_model_path, bind, lift_result, log_if, when, ret.
  destruct (dict_get_cases doc model_arch) as [(by_name & Hget & Hin)|[Hget _]].
  - exists model_name. split; [now right|].
    pose proof (dict_get_absent by_name model_name (Hno by_name Hin)) as Hname.
    destruct logger; rewrite ?read_json_add_log, Hread, Hget, Hname; reflexivity.
  - exists model_arch. split; [now left|].
    destruct logger; rewrite ?read_json_add_log, Hread, Hget; reflexivity.
Qed.

Lemma download_model_missing_entry_witness :
  exists key,
    (key = "demucs" \/ key = "unknown")
    /\ download_model "/opt/uvr" "unknown" "demucs" None None false
         ManifestExample.installed
       = (Raise (KeyError key), ManifestExample.installed).
Proof.
  apply (download_model_missing_entry "/opt/uvr" "unknown" "demucs" None false
           ManifestExample.installed ManifestExample.doc).
  - vm_compute. reflexivity.
  - intros by_name [Heq|[]]. injection Heq as <-. simpl.
    intros [H|[]]. discriminate H.
Defined.

(** ** [get_model_path] *)

(** C5 (amended). For a name that carries an extension, [get_model_path]
    returns the joined path of the directory and the name exactly when the
    directory argument exists and the joined path is a regular file, and
    none otherwise; the subdirectory and the base-name scan play no part. *)
Theorem get_model_path_with_extension (model_name model_dir : string)
  (w : world) :
  snd (splitext model_name) <> "" ->
  get_model_path model_name model_dir w
  = Ok (if path_exists w model_dir && isfile w (join model_dir [model_name])
        then Some (join model_dir [model_name]) else None).
Proof.
  intros Hext. unfold get_model_path.
  destruct (path_exists w model_dir); simpl; [|reflexivity].
  destruct (splitext model_name) as [base_name extension]. simpl in Hext.
  destruct (String.eqb_spec extension "") as [->|_]; [contradiction|]. simpl.
  unfold isfile, path_exists.
  destruct (resolve w (join model_dir [model_name])); simpl; [|reflexivity].
  destruct (kind_at (w_fs w) a) as [[c|]|]; reflexivity.
Qed.

Lemma get_model_path_with_extension_witness :
  get_model_path "flat.pth" "/store" Examples.store_world
  = Ok (Some "/store/flat.pth").
Proof.
  rewrite (get_model_path_with_extension "flat.pth" "/store" Examples.store_world).
  - vm_compute. reflexivity.
  - vm_compute. discriminate.
Defined.

(** The joined path of a missing directory and an absolute name is the
    name itself: it is a regular file here, and the answer is still none. *)
Lemma get_model_path_extension_absolute_name :
  snd (splitext "/x.onnx") <> ""
  /\ join "/missing" ["/x.onnx"] = "/x.onnx"
  /\ isfile Examples.store_world (join "/missing" ["/x.onnx"]) = true
  /\ get_model_path "/x.onnx" "/missing" Examples.store_world = Ok None.
Proof. vm_compute. repeat split; congruence. Qed.

(** The same with the empty directory argument and a working directory at
    the root. *)
Lemma get_model_path_extension_empty_dir :
  snd (splitext "x.onnx") <> ""
  /\ isfile Examples.store_world (join "" ["x.onnx"]) = true
  /\ get_model_path "x.onnx" "" Examples.store_world = Ok None.
Proof. vm_compute. repeat split; congruence. Qed.

(** C4 (at the failing input). The directory argument names a regular
    file and the name has no extension: [os.listdir] raises. *)
Theorem get_model_path_raises_on_regular_file :
  isfile Examples.store_world "/store/notes.txt" = true
  /\ snd (splitext "model") = ""
  /\ get_model_path "model" "/store/notes.txt" Examples.store_world
     = Raise NotADirectoryError.
Proof. vm_compute. repeat split; reflexivity. Qed.

Lemma isdir_listdir (w : world) (path : string) :
  isdir w path = true -> exists files, listdir w path = Ok files.
Proof.
  unfold isdir, listdir. destruct (resolve w path) as [c|e]; [|discriminate].
  destruct (kind_at (w_fs w) c) as [[x|]|]; try discriminate.
  intros _. eexists. reflexivity.
Qed.

(** Where the directory argument is a directory, or does not exist, the
    function returns. *)
Lemma get_model_path_returns (model_name model_dir : string) (w : world) :
  isdir w model_dir = true \/ path_exists w model_dir = false ->
  exists r, get_model_path model_name model_dir w = Ok r.
Proof.
  intros Hdir. unfold get_model_path.
  destruct (path_exists w model_dir) eqn:Hex; simpl; [|eexists; reflexivity].
  destruct Hdir as [Hdir|]; [|discriminate].
  destruct (splitext model_name) as [base_name extension].
  destruct (negb (extension =? "")%string).
  { destruct (_ && _); eexists; reflexivity. }
  cbv zeta.
  destruct (isdir_listdir w model_dir Hdir) as [files Hfiles].
  destruct (isdir w (join model_dir [model_name])) eqn:Hsub.
  - destruct (isdir_listdir w _ Hsub) as [sub Hls]. rewrite Hls.
    destruct (first_model_file _ sub); [eexists; reflexivity|].
    rewrite Hfiles. eexists; reflexivity.
  - rewrite Hfiles. eexists; reflexivity.
Qed.

Lemma first_model_file_found (subdir : string) (files : list string) :
  (exists file, In file files /\ endswith_any file model_extensions = true) ->
  exists file,
    In file files /\ endswith_any file model_extensions = true
    /\ first_model_file subdir files = Some (join subdir [file]).
Proof.
  induction files as [|file rest IH]; intros (f & Hin & Hext).
  - destruct Hin.
  - simpl. destruct (endswith_any file model_extensions) eqn:Hfile.
    + exists file. split; [now left | split; [exact Hfile | reflexivity]].
    + destruct IH as (g & Hg & Hgext & Hfound).
      * destruct Hin as [<-|Hin]; [congruence|]. now exists f.
      * exists g. split; [now right | split; [exact Hgext | exact Hfound]].
Qed.

Lemma first_model_file_none (subdir : string) (files : list string) :
  (forall file, In file files -> endswith_any file model_extensions = false) ->
  first_model_file subdir files = None.
Proof.
  induction files as [|file rest IH]; intros Hnone; [reflexivity|].
  simpl. rewrite (Hnone file (or_introl eq_refl)).
  apply IH. intros f Hf. apply Hnone. now right.
Qed.

Lemma scan_dir_found (w : world) (model_name model_dir : string)
  (files : list string) (path : string) :
  scan_dir w model_name model_dir files = Some path ->
  exists file,
    In file files /\ path = join model_dir [file]
    /\ isfile w path = true /\ fst (splitext file) = model_name.
Proof.
  induction files as [|file rest IH]; [discriminate|].
  simpl.
  destruct (isfile w (join model_dir [file])) eqn:Hfile; simpl.
  - destruct (String.eqb_spec (fst (splitext file)) model_name) as [Hbase|_].
    + intros [= <-]. exists file. split; [now left | split; [reflexivity | split; [exact Hfile | exact Hbase]]].
    + intros H. destruct (IH H) as (f & Hin & Hrest). exists f. split; [now right | exact Hrest].
  - intros H. destruct (IH H) as (f & Hin & Hrest). exists f. split; [now right | exact Hrest].
Qed.

Lemma scan_dir_none (w : world) (model_name model_dir : string)
  (files : list string) :
  scan_dir w model_name model_dir files = None ->
  forall file, In file files ->
    isfile w (join model_dir [file]) = false
    \/ fst (splitext file) <> model_name.
Proof.
  induction files as [|file rest IH]; intros Hscan f Hin; [destruct Hin|].
  simpl in Hscan.
  destruct (isfile w (join model_dir [file])) eqn:Hfile; simpl in Hscan.
  - destruct (String.eqb_spec (fst (splitext file)) model_name) as [_|Hne];
      [discriminate|].
    destruct Hin as [<-|Hin]; [now right | now apply IH].
  - destruct Hin as [<-|Hin]; [now left | now apply IH].
Qed.

Lemma first_model_file_first (subdir : string) (before after : list string)
  (file : string) :
  (forall other, In other before ->
     endswith_any other model_extensions = false) ->
  endswith_any file model_extensions = true ->
  first_model_file subdir (before ++ file :: after) = Some (join subdir [file]).
Proof.
  induction before as [|g before IH]; intros Hbefore Hfile.
  - cbn [app first_model_file]. now rewrite Hfile.
  - cbn [app first_model_file]. rewrite (Hbefore g (or_introl eq_refl)).
    apply IH; [|exact Hfile]. intros other Hin. apply Hbefore. now right.
Qed.

Lemma scan_dir_first (w : world) (model_name model_dir : string)
  (before after : list string) (file : string) :
  (forall other, In other before ->
     isfile w (join model_dir [other]) = false
     \/ fst (splitext other) <> model_name) ->
  isfile w (join model_dir [file]) = true ->
  fst (splitext file) = model_name ->
  scan_dir w model_name model_dir (before ++ file :: after)
  = Some (join model_dir [file]).
Proof.
  induction before as [|g before IH]; intros Hbefore Hfile Hbase.
  - cbn [app scan_dir]. rewrite Hfile, Hbase, String.eqb_refl. reflexivity.
  - cbn [app scan_dir].
    replace (isfile w (join model_dir [g])
             && (fst (splitext g) =? model_name)%string) with false.
    + apply IH; [|exact Hfile|exact Hbase].
      intros other Hin. apply Hbefore. now right.
    + symmetry. apply andb_false_iff.
      destruct (Hbefore g (or_introl eq_refl)) as [Hno|Hne]; [now left|].
      right. now apply String.eqb_neq.
Qed.

Lemma scan_dir_nothing (w : world) (model_name model_dir : string)
  (files : list string) :
  (forall other, In other files ->
     isfile w (join model_dir [other]) = false
     \/ fst (splitext other) <> model_name) ->
  scan_dir w model_name model_dir files = None.
Proof.
  induction files as [|g files IH]; intros Hnone; [reflexivity|].
  cbn [scan_dir].
  replace (isfile w (join model_dir [g])
           && (fst (splitext g) =? model_name)%string) with false.
  - apply IH. intros other Hin. apply Hnone. now right.
  - symmetry. apply andb_false_iff.
    destruct (Hnone g (or_introl eq_refl)) as [Hno|Hne]; [now left|].
    right. now apply String.eqb_neq.
Qed.

(** For a name without an extension and an existing directory argument,
    what [get_model_path] returns, by the listings alone: the first entry
    of the same-named subdirectory whose name ends in .onnx, .pth or
    .ckpt; with no such subdirectory or no such entry, the first entry of
    the directory that is a regular file with the name as its base name;
    None where there is none. *)
Lemma get_model_path_order (model_name model_dir : string) (w : world) :
  snd (splitext model_name) = "" ->
  path_exists w model_dir = true ->
  let subdir := join model_dir [model_name] in
  (forall before file after,
      isdir w subdir = true ->
      listdir w subdir = Ok (before ++ file :: after) ->
      (forall other, In other before ->
         endswith_any other model_extensions = false) ->
      endswith_any file model_extensions = true ->
      get_model_path model_name model_dir w = Ok (Some (join subdir [file])))
  /\ (forall files,
        isdir w subdir = false
        \/ (exists entries,
              listdir w subdir = Ok entries
              /\ forall other, In other entries ->
                   endswith_any other model_extensions = false) ->
        listdir w model_dir = Ok files ->
        (forall before file after,
            files = before ++ file :: after ->
            (forall other, In other before ->
               isfile w (join model_dir [other]) = false
               \/ fst (splitext other) <> model_name) ->
            isfile w (join model_dir [file]) = true ->
            fst (splitext file) = model_name ->
            get_model_path model_name model_dir w
            = Ok (Some (join model_dir [file])))
        /\ ((forall other, In other files ->
               isfile w (join model_dir [other]) = false
               \/ fst (splitext other) <> model_name) ->
            get_model_path model_name model_dir w = Ok None)).
Proof.
  intros Hext Hdir subdir.
  assert (Hbody : get_model_path model_name model_dir w
                  = match (if isdir w subdir
                           then match listdir w subdir with
                                | Ok files => Ok (first_model_file subdir files)
                                | Raise e => Raise e
                                end
                           else Ok None) with
                    | Ok (Some path) => Ok (Some path)
                    | Ok None => scan_result model_name model_dir w
                    | Raise e => Raise e
                    end).
  { unfold get_model_path. rewrite Hdir. simpl.
    destruct (splitext model_name) as [base_name extension]. simpl in Hext.
    subst extension. reflexivity. }
  split.
  - intros before file after Hsub Hls Hbefore Hfile.
    now rewrite Hbody, Hsub, Hls, (first_model_file_first _ _ _ _ Hbefore Hfile).
  - intros files Hnone Hls.
    assert (Hscan : get_model_path model_name model_dir w
                    = Ok (scan_dir w model_name model_dir files)).
    { rewrite Hbody. unfold scan_result. rewrite Hls.
      destruct Hnone as [Hsub|(entries & Hsubls & Hno)].
      - now rewrite Hsub.
      - rewrite Hsubls, (first_model_file_none subdir entries Hno).
        now destruct (isdir w subdir). }
    split.
    + intros before file after -> Hbefore Hfile Hbase.
      now rewrite Hscan, (scan_dir_first _ _ _ _ _ _ Hbefore Hfile Hbase).
    + intros Hall. now rewrite Hscan, (scan_dir_nothing _ _ _ _ Hall).
Qed.

(** Where every entry of the same-named subdirectory that is named like
    a model file is a regular file, what is returned from it is one. *)
Lemma get_model_path_model_file (model_name model_dir : string)
  (files : list string) (w : world) :
  snd (splitext model_name) = "" ->
  path_exists w model_dir = true ->
  let subdir := join model_dir [model_name] in
  isdir w subdir = true ->
  listdir w subdir = Ok files ->
  (forall file, In file files ->
     endswith_any file model_extensions = true ->
     isfile w (join subdir [file]) = true) ->
  (exists file, In file files /\ endswith_any file model_extensions = true) ->
  exists file,
    In file files /\ endswith_any file model_extensions = true
    /\ isfile w (join subdir [file]) = true
    /\ get_model_path model_name model_dir w = Ok (Some (join subdir [file])).
Proof.
  intros Hext Hdir subdir Hsub Hls Hregular Hsome.
  destruct (first_model_file_found subdir files Hsome)
    as (f & Hin & Hf & Hfound).
  exists f. split; [exact Hin|]. split; [exact Hf|].
  split; [now apply Hregular|].
  unfold get_model_path. rewrite Hdir. cbn [negb].
  destruct (splitext model_name) as [base_name extension]. cbn [snd] in Hext.
  subst extension. cbn [String.eqb negb]. cbv zeta. fold subdir.
  now rewrite Hsub, Hls, Hfound.
Qed.

(** C6 (at the failing input). The same-named subdirectory [/store/m2]
    holds the regular file [w.pth] and a directory [d.ckpt], listed
    first: the directory is what is returned. [/store/m3] holds a
    directory [d.ckpt] and no file: the directory is returned again, and
    the regular file [/store/m3.pth] of the directory itself is not
    looked for. *)
Theorem get_model_path_returns_directory :
  snd (splitext "m2") = ""
  /\ listdir EntryKinds.store "/store/m2" = Ok ["d.ckpt"; "w.pth"]
  /\ isfile EntryKinds.store "/store/m2/w.pth" = true
  /\ get_model_path "m2" "/store" EntryKinds.store
     = Ok (Some "/store/m2/d.ckpt")
  /\ isfile EntryKinds.store "/store/m2/d.ckpt" = false
  /\ isdir EntryKinds.store "/store/m2/d.ckpt" = true
  /\ listdir EntryKinds.store "/store/m3" = Ok ["d.ckpt"]
  /\ isfile EntryKinds.store "/store/m3.pth" = true
  /\ fst (splitext "m3.pth") = "m3"
  /\ get_model_path "m3" "/store" EntryKinds.store
     = Ok (Some "/store/m3/d.ckpt")
  /\ isfile EntryKinds.store "/store/m3/d.ckpt" = false.
Proof. vm_compute. repeat split; reflexivity. Qed.

(** ** Facts about splitting and joining *)

Lemma split_on_nonempty (sep : ascii) (s : string) : split_on sep s <> [].
Proof.
  destruct s as [|c s]; simpl; [discriminate|].
  destruct (Ascii.eqb c sep); [discriminate|].
  destruct (split_on sep s); discriminate.
Qed.

Lemma split_on_app (sep : ascii) (a b : string) :
  split_on sep (a ++ String sep b) = split_on sep a ++ split_on sep b.
Proof.
  induction a as [|c a IH]; simpl.
  - now rewrite Ascii.eqb_refl.
  - destruct (Ascii.eqb c sep); [now rewrite IH|].
    rewrite IH. destruct (split_on sep a) as [|h t] eqn:Hs; [|reflexivity].
    now apply split_on_nonempty in Hs.
Qed.

Lemma split_on_free (sep : ascii) (s : string) :
  has_char sep s = false -> split_on sep s = [s].
Proof.
  induction s as [|c s IH]; simpl; [reflexivity|].
  intros H. apply orb_false_iff in H as [Hc Hs].
  rewrite Hc, (IH Hs). reflexivity.
Qed.

Lemma last_item_free (sep : ascii) (s : string) :
  has_char sep (last_item (split_on sep s)) = false.
Proof.
  unfold last_item. induction s as [|c s IH]; simpl; [reflexivity|].
  pose proof (split_on_nonempty sep s) as Hne.
  destruct (Ascii.eqb c sep) eqn:Hc.
  - destruct (split_on sep s) as [|h t]; [contradiction | exact IH].
  - destruct (split_on sep s) as [|h t]; [contradiction|].
    destruct t as [|h' t]; [|exact IH].
    simpl in *. now rewrite Hc, IH.
Qed.

(** The name up to the first dot, whatever follows it. *)
Lemma strip_name_first_dot (a b : string) :
  has_char "." a = false -> strip_name (a ++ String "." b) = a.
Proof.
  intros Ha. unfold strip_name.
  rewrite split_on_app, (split_on_free _ _ Ha).
  pose proof (split_on_nonempty "." b) as Hne.
  destruct (split_on "." b) as [|h t]; [contradiction | reflexivity].
Qed.

Lemma endswith_app (s suf : string) :
  endswith s suf = true -> exists p, s = (p ++ suf)%string.
Proof.
  induction s as [|c s IH]; intros H; cbn [endswith] in H.
  - rewrite orb_false_r in H. apply String.eqb_eq in H. now exists "".
  - apply orb_true_iff in H as [H|H].
    + apply String.eqb_eq in H. now exists "".
    + destruct (IH H) as [p ->]. now exists (String c p).
Qed.

Lemma startswith_sep_app (a b : string) :
  a <> "" -> startswith (a ++ b) "/" = startswith a "/".
Proof.
  destruct a as [|c a]; [congruence|]. intros _.
  unfold startswith.
  change (String c a ++ b)%string with (String c (a ++ b)).
  cbn [String.prefix].
  destruct (ascii_dec "/" c); [|reflexivity].
  now destruct (a ++ b)%string, a.
Qed.

Lemma startswith_sep_free (s : string) :
  has_char "/" s = false -> startswith s "/" = false.
Proof.
  destruct s as [|c s]; [reflexivity|].
  unfold startswith. cbn [has_char String.prefix].
  intros H. apply orb_false_iff in H as [Hc _].
  destruct (ascii_dec "/" c) as [<-|]; [discriminate | reflexivity].
Qed.

Lemma app_empty_r (s : string) : (s ++ "")%string = s.
Proof.
  induction s as [|c s IH]; [reflexivity|].
  change (String c (s ++ "") = String c s). now rewrite IH.
Qed.

Lemma app_not_empty (a b : string) : a <> "" -> (a ++ b)%string <> "".
Proof. destruct a; [congruence | discriminate]. Qed.

Lemma join_step_not_empty (a b : string) : b <> "" -> join_step a b <> "".
Proof.
  intros Hb. unfold join_step.
  destruct (startswith b "/"); [exact Hb|].
  destruct (_ || _); destruct a; simpl; try discriminate; exact Hb.
Qed.

Lemma join_step_left_not_empty (a b : string) :
  a <> "" -> join_step a b <> "".
Proof.
  intros Ha. unfold join_step.
  destruct (startswith b "/") eqn:Hb.
  - destruct b; [discriminate Hb | discriminate].
  - destruct (_ || _); now apply app_not_empty.
Qed.

Lemma weights_path_not_empty (uvr_path model_arch model_name : string) :
  weights_path uvr_path model_arch model_name <> "".
Proof.
  unfold weights_path, join. simpl.
  apply join_step_left_not_empty, join_step_not_empty. discriminate.
Qed.

Lemma join_single (a b : string) : join a [b] = join_step a b.
Proof. reflexivity. Qed.

Lemma app_assoc_sep (a b : string) :
  ((a ++ "/") ++ b)%string = (a ++ String "/" b)%string.
Proof.
  induction a as [|c a IH]; [reflexivity|].
  change (String c ((a ++ "/") ++ b) = String c (a ++ String "/" b)).
  now rewrite IH.
Qed.

(** ** Path resolution *)

Lemma kind_at_snoc (t : gmap (list string) node) (c : list string)
  (name : string) : kind_at t (c ++ [name]) = t !! (c ++ [name]).
Proof. now destruct c. Qed.

Lemma walk_app (t : gmap (list string) node) (xs ys cur : list string) :
  walk t cur (xs ++ ys)
  = match walk t cur xs with
    | Ok c => walk t c ys
    | Raise e => Raise e
    end.
Proof.
  revert cur. induction xs as [|x xs IH]; intros cur; [reflexivity|].
  cbn [app walk].
  destruct (kind_at t cur) as [[?|]|]; try reflexivity.
  destruct (_ || _); [apply IH|].
  destruct (x =? "..")%string; [apply IH|].
  destruct (kind_at t (cur ++ [x])); [apply IH | reflexivity].
Qed.

(** Stepping into one more component needs a directory to step from. *)
Lemma walk_last_dir (t : gmap (list string) node) (xs cur c : list string)
  (y : string) :
  walk t cur (xs ++ [y]) = Ok c ->
  exists c', walk t cur xs = Ok c' /\ kind_at t c' = Some Dir.
Proof.
  rewrite walk_app. destruct (walk t cur xs) as [c'|e]; [|discriminate].
  intros H. exists c'. split; [reflexivity|].
  cbn [walk] in H. destruct (kind_at t c') as [[?|]|]; try discriminate.
  reflexivity.
Qed.

Lemma walk_trailing_slash (t : gmap (list string) node) (xs cur c : list string) :
  walk t cur xs = Ok c -> kind_at t c = Some Dir ->
  walk t cur (xs ++ [""]) = Ok c.
Proof.
  intros Hw Hk. rewrite walk_app, Hw. cbn [walk]. now rewrite Hk.
Qed.

(** A regular file inside a directory path: the directory path exists. *)
Lemma isfile_in_dir_exists (w : world) (dir file : string) :
  dir <> "" -> has_char "/" file = false ->
  isfile w (join dir [file]) = true -> path_exists w dir = true.
Proof.
  intros Hdir Hfree Hfile. unfold isfile in Hfile.
  destruct (resolve w (join dir [file])) as [c|e] eqn:Hres; [|discriminate].
  clear Hfile. rewrite join_single in Hres. unfold join_step in Hres.
  rewrite (startswith_sep_free file Hfree) in Hres.
  destruct (String.eqb_spec dir "") as [|_]; [contradiction|].
  cbn [orb] in Hres. unfold path_exists, resolve.
  destruct (String.eqb_spec dir "") as [|_]; [contradiction|].
  destruct (endswith dir "/") eqn:Hend.
  - apply endswith_app in Hend as [d ->].
    unfold resolve, start_of in *.
    rewrite startswith_sep_app in Hres by exact Hdir.
    rewrite app_assoc_sep, split_on_app, (split_on_free _ _ Hfree) in Hres.
    destruct (String.eqb_spec (d ++ String "/" file) "") as [Heq|_];
      [discriminate|].
    apply walk_last_dir in Hres as (c' & Hw & Hk).
    change (d ++ "/")%string with (d ++ String "/" "")%string.
    rewrite split_on_app. change (split_on "/" "") with [""].
    now rewrite (walk_trailing_slash _ _ _ _ Hw Hk).
  - unfold resolve, start_of in *.
    destruct (String.eqb_spec (dir ++ "/" ++ file) "") as [Heq|_];
      [discriminate|].
    rewrite startswith_sep_app in Hres by exact Hdir.
    change (dir ++ "/" ++ file)%string with (dir ++ String "/" file)%string in Hres.
    rewrite split_on_app, (split_on_free _ _ Hfree) in Hres.
    apply walk_last_dir in Hres as (c' & Hw & _). now rewrite Hw.
Qed.

(** ** Trees that only grow *)

Lemma same_kind_refl (n : node) : same_kind n n.
Proof. now destruct n. Qed.

Lemma same_kind_trans (a b c : node) :
  same_kind a b -> same_kind b c -> same_kind a c.
Proof. now destruct a, b, c. Qed.

Lemma grows_refl (t : gmap (list string) node) : grows t t.
Proof. intros k n H. exists n. split; [exact H | apply same_kind_refl]. Qed.

Lemma grows_trans (t1 t2 t3 : gmap (list string) node) :
  grows t1 t2 -> grows t2 t3 -> grows t1 t3.
Proof.
  intros H12 H23 k n H. destruct (H12 k n H) as (n2 & H2 & Hk2).
  destruct (H23 k n2 H2) as (n3 & H3 & Hk3).
  exists n3. split; [exact H3 | now apply same_kind_trans with n2].
Qed.

Lemma grows_insert (t : gmap (list string) node) (k : list string) (x : node) :
  (forall n, t !! k = Some n -> same_kind n x) -> grows t (<[k := x]> t).
Proof.
  intros Hk j n Hj. destruct (decide (k = j)) as [<-|Hne].
  - exists x. rewrite lookup_insert_eq. split; [reflexivity | now apply Hk].
  - exists n. rewrite lookup_insert_ne by exact Hne.
    split; [exact Hj | apply same_kind_refl].
Qed.

Lemma kind_at_grows (t t' : gmap (list string) node) (c : list string)
  (n : node) :
  grows t t' -> kind_at t c = Some n ->
  exists n', kind_at t' c = Some n' /\ same_kind n n'.
Proof.
  intros Hg. destruct c as [|x c]; simpl.
  - intros [= <-]. now exists Dir.
  - apply Hg.
Qed.

Lemma walk_grows (t t' : gmap (list string) node) (cs cur c : list string) :
  grows t t' -> walk t cur cs = Ok c -> walk t' cur cs = Ok c.
Proof.
  intros Hg. revert cur. induction cs as [|x cs IH]; intros cur; [easy|].
  cbn [walk].
  destruct (kind_at t cur) as [[?|]|] eqn:Hk; try discriminate.
  destruct (kind_at_grows t t' cur Dir Hg Hk) as ([?|] & -> & Hs); [destruct Hs|].
  destruct (_ || _); [apply IH|].
  destruct (x =? "..")%string; [apply IH|].
  destruct (kind_at t (cur ++ [x])) as [n|] eqn:Hx; [|discriminate].
  destruct (kind_at_grows t t' _ n Hg Hx) as (n' & -> & _). apply IH.
Qed.

Lemma isfile_grows (w w' : world) (path : string) :
  grows (w_fs w) (w_fs w') -> w_cwd w = w_cwd w' ->
  isfile w path = true -> isfile w' path = true.
Proof.
  intros Hg Hcwd. unfold isfile, resolve, start_of. rewrite <- Hcwd.
  destruct (path =? "")%string; [discriminate|].
  destruct (walk (w_fs w) _ _) as [c|] eqn:Hw; [|discriminate].
  rewrite (walk_grows _ _ _ _ _ Hg Hw).
  destruct (kind_at (w_fs w) c) as [[x|]|] eqn:Hk; try discriminate.
  destruct (kind_at_grows _ _ c _ Hg Hk) as ([?|] & -> & Hs); [reflexivity | destruct Hs].
Qed.

Lemma path_exists_grows (w w' : world) (path : string) :
  grows (w_fs w) (w_fs w') -> w_cwd w = w_cwd w' ->
  path_exists w path = true -> path_exists w' path = true.
Proof.
  intros Hg Hcwd. unfold path_exists, resolve, start_of. rewrite <- Hcwd.
  destruct (path =? "")%string; [discriminate|].
  destruct (walk (w_fs w) _ _) as [c|] eqn:Hw; [|discriminate].
  now rewrite (walk_grows _ _ _ _ _ Hg Hw).
Qed.

(** ** Writing files and retrieving URLs *)

Lemma is_dot_false (name : string) :
  is_dot name = false ->
  (name =? "")%string || (name =? ".")%string = false
  /\ (name =? "..")%string = false.
Proof.
  unfold is_dot. intros H. apply orb_false_iff in H as [H1 H2].
  now rewrite H1, H2.
Qed.

Lemma write_file_inv (w : world) (path : string) (c : content)
  (t : gmap (list string) node) :
  write_file w path c = Ok t ->
  exists cp,
    (path =? "")%string = false
    /\ walk (w_fs w) (start_of w path) (removelast (split_on "/" path)) = Ok cp
    /\ kind_at (w_fs w) cp = Some Dir
    /\ is_dot (last_item (split_on "/" path)) = false
    /\ (forall n, w_fs w !! (cp ++ [last_item (split_on "/" path)]) = Some n ->
          same_kind n (File c))
    /\ t = <[cp ++ [last_item (split_on "/" path)] := File c]> (w_fs w).
Proof.
  unfold write_file, walk_parent.
  destruct (path =? "")%string; [discriminate|].
  destruct (walk (w_fs w) _ _) as [cp|]; [|discriminate].
  destruct (kind_at (w_fs w) cp) as [[?|]|] eqn:Hcp; try discriminate.
  destruct (is_dot _) eqn:Hdot; [discriminate|].
  rewrite kind_at_snoc.
  destruct (w_fs w !! _) as [[c0|]|] eqn:Hold; try discriminate;
    intros [= <-]; exists cp; split_and!; try reflexivity; try assumption;
    rewrite Hold; intros n [= <-]; exact I.
Qed.

Lemma write_file_grows (w : world) (path : string) (c : content)
  (t : gmap (list string) node) :
  write_file w path c = Ok t -> grows (w_fs w) t.
Proof.
  intros H. apply write_file_inv in H as (cp & _ & _ & _ & _ & Hold & ->).
  now apply grows_insert.
Qed.

Lemma write_file_isfile (w : world) (path : string) (c : content)
  (t : gmap (list string) node) :
  write_file w path c = Ok t -> isfile (set_fs t w) path = true.
Proof.
  intros H. pose proof (write_file_grows _ _ _ _ H) as Hg.
  apply write_file_inv in H as (cp & Hne & Hw & Hcp & Hdot & _ & Ht).
  unfold isfile, resolve. rewrite Hne.
  change (start_of (set_fs t w) path) with (start_of w path).
  change (w_fs (set_fs t w)) with t.
  rewrite (app_removelast_last "" (split_on_nonempty "/" path)), walk_app.
  rewrite (walk_grows _ _ _ _ _ Hg Hw).
  fold (last_item (split_on "/" path)).
  set (name := last_item (split_on "/" path)) in *.
  cbn [walk].
  destruct (kind_at_grows _ _ cp Dir Hg Hcp) as ([?|] & -> & Hs); [destruct Hs|].
  destruct (is_dot_false name Hdot) as [-> ->].
  rewrite kind_at_snoc, Ht, lookup_insert_eq.
  now rewrite kind_at_snoc, lookup_insert_eq.
Qed.

(** What one retrieval does to the world, whatever its outcome. *)
Lemma urlretrieve_effect (url filename : string) (w w' : world)
  (r : result unit) :
  urlretrieve url filename w = (r, w') ->
  w_requests w' = w_requests w ++ (if has_scheme url then [url] else [])
  /\ w_cwd w' = w_cwd w /\ w_net w' = w_net w /\ w_log w' = w_log w
  /\ grows (w_fs w) (w_fs w')
  /\ (r = Ok tt -> has_scheme url = true /\ isfile w' filename = true).
Proof.
  unfold urlretrieve. destruct (has_scheme url); cbn [negb].
  2:{ intros [= <- <-]. split_and!; try reflexivity.
      - now rewrite app_nil_r.
      - apply grows_refl.
      - discriminate. }
  destruct (w_net w (w_requests w) url) as [c|c|].
  - destruct (write_file (add_request url w) filename c) as [t|e] eqn:Hwrite;
      intros [= <- <-]; split_and!; try reflexivity; try (apply grows_refl);
      try discriminate.
    + exact (write_file_grows _ _ _ _ Hwrite).
    + intros _. split; [reflexivity|].
      exact (write_file_isfile _ _ _ _ Hwrite).
  - destruct (write_file (add_request url w) filename c) as [t|e] eqn:Hwrite;
      intros [= <- <-]; split_and!; try reflexivity; try (apply grows_refl);
      try discriminate.
    exact (write_file_grows _ _ _ _ Hwrite).
  - intros [= <- <-]. split_and!; try reflexivity; try (apply grows_refl).
    discriminate.
Qed.

(** An unreachable host: the request is made and nothing is written. *)
Lemma urlretrieve_unreachable (url filename : string) (w : world) :
  has_scheme url = true ->
  w_net w (w_requests w) url = Unreachable ->
  urlretrieve url filename w = (Raise URLError, add_request url w).
Proof. intros Hs H. unfold urlretrieve. now rewrite Hs, H. Qed.

(** A URL without a type: ValueError, and the world is as it was. *)
Lemma urlretrieve_no_scheme (url filename : string) (w : world) :
  has_scheme url = false ->
  urlretrieve url filename w = (Raise ValueError, w).
Proof. intros Hs. unfold urlretrieve. now rewrite Hs. Qed.

Lemma log_if_run (logger : bool) (l : level) (msg : message) (w : world) :
  log_if logger l msg w = (Ok tt, logged logger (l, msg) w).
Proof. now destruct logger. Qed.

Section Downloads.

Variables (model_name : string) (model_path : list string)
          (save_path : string) (logger : bool).

Lemma download_files_cons (file url : string)
  (rest : list (string * string)) (w : world) :
  download_files model_name model_path save_path logger ((file, url) :: rest) w
  = match urlretrieve url (join save_path [file]) w with
    | (Ok _, w1) =>
        download_files model_name model_path save_path logger rest (logged logger (INFO, MsgDownloaded model_name model_path) w1)
    | (Raise e, w1) => (Raise e, w1)
    end.
Proof.
  cbn [download_files]. unfold bind.
  destruct (urlretrieve url _ w) as [[[]|e] w1]; [|reflexivity].
  now rewrite log_if_run.
Qed.

Lemma download_files_app (todo rest : list (string * string)) (w : world) :
  download_files model_name model_path save_path logger (todo ++ rest) w
  = match download_files model_name model_path save_path logger todo w with
    | (Ok _, w') => download_files model_name model_path save_path logger rest w'
    | (Raise e, w') => (Raise e, w')
    end.
Proof.
  revert w. induction todo as [|[file url] todo IH]; intros w; [reflexivity|].
  cbn [app]. rewrite !download_files_cons.
  destruct (urlretrieve url _ w) as [[[]|e] w1]; [apply IH | reflexivity].
Qed.

(** The loop, whatever its outcome: requests are a prefix of the URLs in
    order, the tree only grows; on success every URL was requested and
    every target is a regular file. *)
Lemma download_files_effect (todo : list (string * string)) (w w' : world)
  (r : result unit) :
  download_files model_name model_path save_path logger todo w = (r, w') ->
  w_cwd w' = w_cwd w /\ w_net w' = w_net w
  /\ grows (w_fs w) (w_fs w')
  /\ (r = Ok tt ->
      w_requests w' = w_requests w ++ map snd todo
      /\ w_log w' = w_log w
                    ++ (if logger
                        then repeat (INFO, MsgDownloaded model_name model_path)
                               (List.length todo)
                        else [])
      /\ forall file url, In (file, url) todo ->
           isfile w' (join save_path [file]) = true).
Proof.
  revert w. induction todo as [|[file url] todo IH]; intros w.
  - intros [= <- <-]. repeat split; try apply grows_refl.
    + now rewrite app_nil_r.
    + destruct logger; now rewrite app_nil_r.
    + intros ? ? [].
  - rewrite download_files_cons.
    destruct (urlretrieve url _ w) as [[[]|e] w1] eqn:Hget.
    + apply urlretrieve_effect in Hget
        as (Hreq & Hcwd & Hnet & Hlog & Hg & Hfile).
      destruct (Hfile eq_refl) as [Hscheme Hwritten]. rewrite Hscheme in Hreq.
      intros Hrest.
      apply IH in Hrest as (Hcwd' & Hnet' & Hg' & Hok).
      assert (Hg1 : grows (w_fs w1) (w_fs (logged logger
                     (INFO, MsgDownloaded model_name model_path) w1)))
        by (destruct logger; apply grows_refl).
      assert (Hcwd1 : w_cwd (logged logger
                        (INFO, MsgDownloaded model_name model_path) w1)
                      = w_cwd w1) by now destruct logger.
      split; [now rewrite Hcwd', Hcwd1|].
      split; [rewrite Hnet'; now destruct logger|].
      split; [exact (grows_trans _ _ _ Hg (grows_trans _ _ _ Hg1 Hg'))|].
      intros ->. destruct (Hok eq_refl) as (Hreq' & Hlog' & Hfiles).
      split; [|split].
      * rewrite Hreq'. cbn [map snd].
        replace (w_requests (logged logger _ w1)) with (w_requests w1)
          by now destruct logger.
        now rewrite Hreq, <- app_assoc.
      * rewrite Hlog'. destruct logger; cbn [logged add_log w_log repeat List.length].
        -- now rewrite Hlog, <- app_assoc.
        -- now rewrite Hlog.
      * intros f u [[= <- <-]|Hin]; [|now apply (Hfiles f u)].
        apply (isfile_grows w1); [| |exact Hwritten].
        -- exact (grows_trans _ _ _ Hg1 Hg').
        -- now rewrite Hcwd', Hcwd1.
    + intros [= <- <-].
      apply urlretrieve_effect in Hget as (_ & Hcwd & Hnet & _ & Hg & _).
      split_and!; try assumption. discriminate.
Qed.

End Downloads.

(** ** [download_model] *)

Lemma combine_file_names (urls : list string) :
  combine (file_names urls) urls
  = map (fun url => (last_item (split_on "/" url), url)) urls.
Proof.
  unfold file_names. induction urls as [|u urls IH]; [reflexivity|].
  cbn [map combine]. now rewrite IH.
Qed.

Section DownloadModel.

Variable uvr_path : string.

Lemma resolve_model_path_effect (model_name model_arch : string)
  (model_path : option (list string)) (logger : bool) (w w0 : world)
  (r : result (list string)) :
  resolve_model_path uvr_path model_name model_arch model_path logger w
  = (r, w0) ->
  w_fs w0 = w_fs w /\ w_cwd w0 = w_cwd w /\ w_net w0 = w_net w
  /\ w_requests w0 = w_requests w.
Proof.
  destruct model_path as [urls|]; cbn [resolve_model_path].
  - intros [= <- <-]. now repeat split.
  - unfold bind. rewrite log_if_run. unfold lift_result.
    destruct (read_json _ _) as [doc|]; [|intros [= <- <-]; now destruct logger].
    destruct (dict_get doc model_arch) as [by_name|];
      [|intros [= <- <-]; now destruct logger].
    destruct (dict_get by_name model_name) as [data|];
      intros [= <- <-]; now destruct logger.
Qed.

Lemma ensure_dir_effect (save_path : string) (w w1 : world) (r : result unit) :
  ensure_dir save_path w = (r, w1) ->
  w_cwd w1 = w_cwd w /\ w_net w1 = w_net w
  /\ w_requests w1 = w_requests w /\ w_log w1 = w_log w.
Proof.
  unfold ensure_dir, bind, lift_result.
  destruct (path_exists w save_path); cbn [negb].
  - intros [= <- <-]. now repeat split.
  - unfold os_makedirs. destruct (makedirs w save_path) as [r' t].
    intros [= <- <-]. now repeat split.
Qed.

(** The body of [download_model] after its two preparation steps. *)
Lemma download_model_run (model_name model_arch : string)
  (model_path : option (list string)) (save_path : option string)
  (logger : bool) (urls : list string) (w w0 w1 : world) :
  let save := target_dir uvr_path model_name model_arch save_path in
  resolve_model_path uvr_path model_name model_arch model_path logger w
  = (Ok urls, w0) ->
  ensure_dir save w0 = (Ok tt, w1) ->
  download_model uvr_path model_name model_arch model_path save_path logger w
  = if model_exists_in_package uvr_path model_name model_arch None
         (Some (file_names urls)) w1
    then (Ok (Some save),
          logged logger (INFO, MsgAlreadyExists model_name save) w1)
    else match download_files model_name urls save logger
                 (combine (file_names urls) urls) w1 with
         | (Ok _, w2) => (Ok (Some save), w2)
         | (Raise e, w2) =>
             (Ok None, logged logger (ERROR, MsgFailed model_name urls e) w2)
         end.
Proof.
  intros save Hurls Hdir. unfold download_model.
  unfold bind at 1. rewrite Hurls.
  unfold bind at 1. fold (target_dir uvr_path model_name model_arch save_path).
  fold save. rewrite Hdir.
  unfold bind at 1. unfold lift_result at 1.
  destruct (model_exists_in_package _ _ _ _ _ w1).
  - unfold bind. now rewrite log_if_run.
  - unfold try_except, bind.
    destruct (download_files _ _ _ _ _ w1) as [[[]|e] w2]; [reflexivity|].
    now rewrite log_if_run.
Qed.

(** C2. The files before [url] were retrieved and the retrieval of [url]
    raises (unreachable host, short read, a local file that cannot be
    written, or a URL urllib refuses for want of a type):
    [download_model] returns None; the logger, if present, gets one error
    line; the requests made are those up to and including [url] (up to
    [url] only where urllib refused it before any request), none of the
    later ones; every file retrieved before is still a regular file, as
    is every file that was there at the start. *)
Theorem download_model_network_error (model_name model_arch : string)
  (model_path : option (list string)) (save_path : option string)
  (logger : bool) (before after : list string) (url : string) (e : exn)
  (w w0 w1 w2 w3 : world) :
  let urls := before ++ url :: after in
  let save := target_dir uvr_path model_name model_arch save_path in
  resolve_model_path uvr_path model_name model_arch model_path logger w
  = (Ok urls, w0) ->
  ensure_dir save w0 = (Ok tt, w1) ->
  model_exists_in_package uvr_path model_name model_arch None
    (Some (file_names urls)) w1 = false ->
  download_files model_name urls save logger
    (combine (file_names before) before) w1 = (Ok tt, w2) ->
  urlretrieve url (join save [last_item (split_on "/" url)]) w2
  = (Raise e, w3) ->
  exists w',
    download_model uvr_path model_name model_arch model_path save_path
      logger w = (Ok None, w')
    /\ w_log w'
       = w_log w3
         ++ (if logger then [(ERROR, MsgFailed model_name urls e)] else [])
    /\ w_requests w'
       = w_requests w ++ before ++ (if has_scheme url then [url] else [])
    /\ (forall u, In u before ->
          isfile w' (join save [last_item (split_on "/" u)]) = true)
    /\ (forall path, isfile w1 path = true -> isfile w' path = true).
Proof.
  intros urls save Hurls Hdir Hcheck Hbefore Hfail.
  exists (logged logger (ERROR, MsgFailed model_name urls e) w3).
  assert (Hloop : download_files model_name urls save logger
                    (combine (file_names urls) urls) w1 = (Raise e, w3)).
  { subst urls. rewrite combine_file_names, map_app. cbn [map].
    rewrite download_files_app, <- combine_file_names, Hbefore.
    now rewrite download_files_cons, Hfail. }
  pose proof (resolve_model_path_effect _ _ _ _ _ _ _ Hurls)
    as (_ & _ & _ & Hreq0).
  pose proof (ensure_dir_effect _ _ _ _ Hdir) as (_ & _ & Hreq1 & _).
  apply download_files_effect in Hbefore as (Hcwd2 & _ & Hg2 & Hok).
  destruct (Hok eq_refl) as (Hreq2 & _ & Hfiles).
  apply urlretrieve_effect in Hfail as (Hreq3 & Hcwd3 & _ & _ & Hg3 & _).
  assert (Hkeep : forall path, isfile w2 path = true ->
            isfile (logged logger (ERROR, MsgFailed model_name urls e) w3)
              path = true).
  { intros path Hp. apply (isfile_grows w2); [| |exact Hp];
      destruct logger; first [exact Hg3 | symmetry; exact Hcwd3]. }
  split_and!.
  - pose proof (download_model_run model_name model_arch model_path
                  save_path logger urls w w0 w1) as Hrun.
    cbv zeta in Hrun. fold save in Hrun.
    now rewrite (Hrun Hurls Hdir), Hcheck, Hloop.
  - now destruct logger; cbn [logged add_log w_log]; rewrite ?app_nil_r.
  - replace (w_requests (logged logger _ w3)) with (w_requests w3)
      by now destruct logger.
    rewrite Hreq3, Hreq2, Hreq1, Hreq0, combine_file_names, map_map.
    cbn [snd]. now rewrite map_id, <- app_assoc.
  - intros u Hu. apply Hkeep.
    apply (Hfiles (last_item (split_on "/" u)) u).
    rewrite combine_file_names. apply in_map_iff. now exists u.
  - intros path Hp. apply Hkeep.
    apply (isfile_grows w1); [exact Hg2 | now rewrite Hcwd2 | exact Hp].
Qed.

End DownloadModel.

(** Three URLs, the second on an unreachable host: None is returned, the
    third URL is never requested, and the first file stays. *)
Lemma download_model_network_error_witness :
  exists w',
    download_model "/opt/uvr" "htdemucs" "demucs" (Some FailingDownload.urls)
      None true FailingDownload.start = (Ok None, w')
    /\ w_log w'
       = w_log FailingDownload.failed
         ++ [(ERROR, MsgFailed "htdemucs" FailingDownload.urls URLError)]
    /\ w_requests w' = ["http://hub/a.th"; "http://down/b.th"]
    /\ isfile w' "/opt/uvr/models_dir/demucs/weights/htdemucs/a.th" = true.
Proof.
  destruct (download_model_network_error "/opt/uvr" "htdemucs" "demucs"
              (Some FailingDownload.urls) None true
              ["http://hub/a.th"] ["http://hub/c.th"] "http://down/b.th"
              URLError FailingDownload.start FailingDownload.start
              FailingDownload.prepared FailingDownload.first_done
              FailingDownload.failed)
    as (w' & Hrun & Hlog & Hreq & Hfiles & _).
  - reflexivity.
  - vm_compute. reflexivity.
  - vm_compute. reflexivity.
  - vm_compute. reflexivity.
  - vm_compute. reflexivity.
  - exists w'. split; [exact Hrun|]. split; [exact Hlog|]. split; [exact Hreq|].
    apply (Hfiles "http://hub/a.th"). now left.
Defined.

(** Where the property of C1 holds: no save path given, a name without a dot,
    every expected file in place. Nothing is requested and the
    conventional directory is returned. *)
Lemma download_model_skips_when_complete (uvr_path model_name model_arch : string)
  (urls : list string) (logger : bool) (w : world) :
  strip_name model_name = model_name ->
  let save := weights_path uvr_path model_arch model_name in
  path_exists w save = true ->
  (forall url, In url urls ->
     isfile w (join save [last_item (split_on "/" url)]) = true) ->
  download_model uvr_path model_name model_arch (Some urls) None logger w
  = (Ok (Some save), logged logger (INFO, MsgAlreadyExists model_name save) w).
Proof.
  intros Hname save Hdir Hfiles.
  rewrite (download_model_run uvr_path model_name model_arch (Some urls) None
             logger urls w w w eq_refl).
  - rewrite model_exists_unfold. unfold lookup_dir. rewrite Hname. fold save.
    rewrite Hdir, andb_true_r.
    replace (forallb _ (file_names urls)) with true; [reflexivity|].
    symmetry. apply forallb_forall. intros file Hin.
    apply in_map_iff in Hin as (url & <- & Hin). now apply Hfiles.
  - unfold ensure_dir, bind, lift_result. cbn [target_dir]. fold save.
    now rewrite Hdir.
Qed.

(** C1 (at the failing input). The file of model ["model.onnx"] is in its
    conventional directory, put there by a first call; the second call
    requests the URL again. *)
Theorem download_model_fetches_again :
  w_requests Redownload.stored = [Redownload.url]
  /\ isfile Redownload.stored (join Redownload.save ["model.onnx"]) = true
  /\ fst (download_model "/opt/uvr" "model.onnx" "mdx" (Some [Redownload.url])
            None false Redownload.stored) = Ok (Some Redownload.save)
  /\ w_requests
       (snd (download_model "/opt/uvr" "model.onnx" "mdx"
               (Some [Redownload.url]) None false Redownload.stored))
     = [Redownload.url; Redownload.url].
Proof. vm_compute. repeat split; reflexivity. Qed.

(** The same with an explicit save path that holds the file already. *)
Lemma download_model_fetches_again_save_path :
  isfile Redownload.kept_elsewhere (join "/store" ["flat.pth"]) = true
  /\ fst (download_model "/opt/uvr" "flat" "demucs" (Some ["http://hub/flat.pth"])
            (Some "/store") false Redownload.kept_elsewhere) = Ok (Some "/store")
  /\ w_requests
       (snd (download_model "/opt/uvr" "flat" "demucs"
               (Some ["http://hub/flat.pth"]) (Some "/store") false
               Redownload.kept_elsewhere))
     = ["http://hub/flat.pth"].
Proof. vm_compute. repeat split; reflexivity. Qed.

(** C9 (at the failing input). For ["a.b.onnx"] the lookup is made in
    [.../weights/a]: the name is cut at its first dot. *)
Theorem model_exists_cuts_at_first_dot :
  strip_name "a.b.onnx" = "a"
  /\ fst (splitext "a.b.onnx") = "a.b"
  /\ lookup_dir "/opt/uvr" "a.b.onnx" "mdx" None
     = "/opt/uvr/models_dir/mdx/weights/a"
  /\ model_exists_in_package "/opt/uvr" "a.b.onnx" "mdx" None None
       FirstDot.with_a_b = false
  /\ model_exists_in_package "/opt/uvr" "a.b.onnx" "mdx" None None
       FirstDot.with_a = true.
Proof. vm_compute. repeat split; reflexivity. Qed.

(** C10. With an explicit save path that exists or can be made, the check
    of [download_model] looks at the conventional directory of the
    architecture and the name, cut at its first dot: the call returns the
    caller's save path with no request made exactly when every expected
    file is a regular file there, at the time of the check. *)
Theorem download_model_checks_default_location
  (uvr_path model_name model_arch save_path : string) (urls : list string)
  (logger : bool) (w w1 : world) :
  ensure_dir save_path w = (Ok tt, w1) ->
  let default_dir := weights_path uvr_path model_arch (strip_name model_name) in
  model_exists_in_package uvr_path model_name model_arch None
    (Some (file_names urls)) w1
  = forallb (fun file => isfile w1 (join default_dir [file])) (file_names urls)
    && path_exists w1 default_dir
  /\ ((exists w',
         download_model uvr_path model_name model_arch (Some urls)
           (Some save_path) logger w = (Ok (Some save_path), w')
         /\ w_requests w' = w_requests w)
      <-> (forall url, In url urls ->
             isfile w1 (join default_dir [last_item (split_on "/" url)]) = true)).
Proof.
  intros Hdir default_dir.
  pose proof (model_exists_unfold uvr_path model_name model_arch None
                (file_names urls) w1) as Hcheck.
  cbn [lookup_dir] in Hcheck. fold default_dir in Hcheck.
  split; [exact Hcheck|].
  pose proof (download_model_run uvr_path model_name model_arch (Some urls)
                (Some save_path) logger urls w w w1 eq_refl Hdir) as Hrun.
  cbn [target_dir] in Hrun.
  pose proof (ensure_dir_effect _ _ _ _ Hdir) as (_ & _ & Hreq1 & _).
  assert (Hall : forallb (fun file => isfile w1 (join default_dir [file]))
                   (file_names urls) = true
                 <-> (forall url, In url urls ->
                        isfile w1 (join default_dir
                                     [last_item (split_on "/" url)]) = true)).
  { rewrite forallb_forall. unfold file_names. split.
    - intros H url Hin. apply H, in_map_iff. now exists url.
    - intros H file Hin. apply in_map_iff in Hin as (url & <- & Hin).
      now apply H. }
  split.
  - intros (w' & Hret & Hreq). rewrite Hrun, Hcheck in Hret.
    destruct (forallb _ (file_names urls)) eqn:Hfiles; [now apply Hall|].
    cbn [andb] in Hret.
    destruct (download_files _ _ _ _ _ w1) as [[[]|e] w2] eqn:Hloop;
      [|discriminate].
    injection Hret as <-.
    apply download_files_effect in Hloop as (_ & _ & _ & Hok).
    destruct (Hok eq_refl) as (Hreq2 & _ & _).
    rewrite Hreq2, Hreq1, combine_file_names, map_map in Hreq.
    cbn [snd] in Hreq. rewrite map_id in Hreq.
    destruct urls as [|url urls']; [intros ? []|].
    apply (f_equal (@List.length string)) in Hreq.
    rewrite length_app in Hreq. cbn [List.length] in Hreq. lia.
  - intros Hfiles. rewrite Hrun, Hcheck.
    rewrite (proj2 Hall Hfiles). cbn [andb].
    destruct urls as [|url urls'].
    + destruct (path_exists w1 default_dir).
      * eexists. split; [reflexivity|]. now destruct logger.
      * eexists. split; [reflexivity|]. exact Hreq1.
    + rewrite (isfile_in_dir_exists w1 default_dir (last_item (split_on "/" url))).
      * eexists. split; [reflexivity|]. now destruct logger.
      * apply weights_path_not_empty.
      * apply last_item_free.
      * apply Hfiles. now left.
Qed.

(** The expected file lies in [/store], the save path given, and not in the
    conventional directory: the call does not return without a request. *)
Lemma download_model_checks_default_location_witness :
  ~ exists w',
      download_model "/opt/uvr" "flat" "demucs" (Some ["http://hub/flat.pth"])
        (Some "/store") false Redownload.kept_elsewhere = (Ok (Some "/store"), w')
      /\ w_requests w' = w_requests Redownload.kept_elsewhere.
Proof.
  intros Hskip.
  pose proof (proj1 (proj2 (download_model_checks_default_location "/opt/uvr"
                              "flat" "demucs" "/store" ["http://hub/flat.pth"]
                              false Redownload.kept_elsewhere
                              Redownload.kept_elsewhere eq_refl))
                Hskip "http://hub/flat.pth" (or_introl eq_refl)) as Hfile.
  vm_compute in Hfile. discriminate Hfile.
Defined.

(** ** [download_all_models] *)

Lemma dict_set_fresh {V : Type} (k : string) (v : V) (d : dict V) :
  ~ In k (keys d) -> dict_set k v d = d ++ [(k, v)].
Proof.
  induction d as [|[k' v'] d IH]; intros Hk; [reflexivity|].
  cbn [dict_set app]. destruct (String.eqb_spec k' k) as [->|_].
  - exfalso. apply Hk. now left.
  - rewrite IH; [reflexivity|]. intros H. apply Hk. now right.
Qed.

Lemma dict_get_snoc {V : Type} (k : string) (v : V) (d : dict V) :
  ~ In k (keys d) -> dict_get (d ++ [(k, v)]) k = Ok v.
Proof.
  induction d as [|[k' v'] d IH]; intros Hk; cbn [dict_get app].
  - now rewrite String.eqb_refl.
  - destruct (String.eqb_spec k' k) as [->|_].
    + exfalso. apply Hk. now left.
    + apply IH. intros H. apply Hk. now right.
Qed.

Lemma dict_set_snoc {V : Type} (k : string) (v v' : V) (d : dict V) :
  ~ In k (keys d) -> dict_set k v' (d ++ [(k, v)]) = d ++ [(k, v')].
Proof.
  induction d as [|[k0 v0] d IH]; intros Hk; cbn [dict_set app].
  - now rewrite String.eqb_refl.
  - destruct (String.eqb_spec k0 k) as [->|_].
    + exfalso. apply Hk. now left.
    + rewrite IH; [reflexivity|]. intros H. apply Hk. now right.
Qed.

Lemma keys_app {V : Type} (d d' : dict V) : keys (d ++ d') = keys d ++ keys d'.
Proof. apply map_app. Qed.

Section AllModels.

Variables (uvr_path : string) (save_path : option string) (logger : bool).

Lemma download_model_value (model_name model_arch : string)
  (urls : list string) (w w' : world) (v : option string) :
  download_model uvr_path model_name model_arch (Some urls) save_path logger w
  = (Ok v, w') ->
  (v = None <-> download_failed uvr_path save_path logger model_name model_arch urls w)
  /\ (v <> None ->
      v = Some (target_dir uvr_path model_name model_arch save_path)).
Proof.
  set (save := target_dir uvr_path model_name model_arch save_path).
  destruct (ensure_dir save w) as [[[]|e] w1] eqn:Hdir.
  - rewrite (download_model_run uvr_path model_name model_arch (Some urls)
               save_path logger urls w w w1 eq_refl Hdir).
    fold save. unfold download_failed. fold save. rewrite Hdir.
    destruct (model_exists_in_package _ _ _ _ _ w1) eqn:Hcheck.
    + intros [= <- <-]. split; [|reflexivity].
      split; [discriminate|]. intros (w1' & e & w2 & [= <-] & Hno & _).
      congruence.
    + destruct (download_files _ _ _ _ _ w1) as [[[]|e] w2] eqn:Hloop;
        intros [= <- <-].
      * split; [|reflexivity].
        split; [discriminate|]. intros (w1' & e & w2' & [= <-] & _ & Hr).
        congruence.
      * split; [|congruence]. split; [|reflexivity].
        intros _. now exists w1, e, w2.
  - unfold download_model. cbn [resolve_model_path]. unfold bind, ret.
    fold (target_dir uvr_path model_name model_arch save_path). fold save.
    rewrite Hdir. discriminate.
Qed.

Lemma download_arch_collect (model_arch : string) (models : dict model_data)
  (acc : dict (dict (option string))) (inner : dict (option string))
  (w : world) :
  ~ In model_arch (keys acc) ->
  List.NoDup (keys inner ++ keys models) ->
  download_arch uvr_path model_arch save_path logger models
    (acc ++ [(model_arch, inner)]) w
  = match collect_arch uvr_path save_path logger model_arch models w with
    | (Ok vs, w') => (Ok (acc ++ [(model_arch, inner ++ vs)]), w')
    | (Raise e, w') => (Raise e, w')
    end.
Proof.
  intros Harch. revert inner w.
  induction models as [|[name data] models IH]; intros inner w Hnames.
  - cbn [download_arch collect_arch]. unfold ret. now rewrite app_nil_r.
  - cbn [download_arch collect_arch]. unfold bind at 1 3.
    destruct (download_model _ _ _ _ _ _ w) as [[v|e] w1]; [|reflexivity].
    unfold bind at 1. unfold lift_result at 1.
    rewrite (dict_get_snoc _ _ _ Harch).
    assert (Hfresh : ~ In name (keys inner)).
    { cbn [keys map fst] in Hnames. apply NoDup_remove_2 in Hnames.
      intros H. apply Hnames, in_or_app. now left. }
    rewrite (dict_set_fresh name v inner Hfresh), (dict_set_snoc _ _ _ _ Harch).
    rewrite IH.
    + unfold bind, ret.
      destruct (collect_arch uvr_path save_path logger model_arch models w1) as [[vs|e] w2];
        [|reflexivity].
      now rewrite <- app_assoc.
    + rewrite keys_app, <- app_assoc. exact Hnames.
Qed.

Lemma download_archs_collect (items : manifest)
  (acc : dict (dict (option string))) (w : world) :
  List.NoDup (keys acc ++ keys items) ->
  Forall (fun item => List.NoDup (keys (snd item))) items ->
  download_archs uvr_path save_path logger items acc w
  = match collect_all uvr_path save_path logger items w with
    | (Ok rs, w') => (Ok (acc ++ rs), w')
    | (Raise e, w') => (Raise e, w')
    end.
Proof.
  revert acc w.
  induction items as [|[arch models] items IH]; intros acc w Harchs Hnames.
  - cbn [download_archs collect_all]. unfold ret. now rewrite app_nil_r.
  - cbn [download_archs collect_all]. unfold bind, ret.
    assert (Hfresh : ~ In arch (keys acc)).
    { cbn [keys map fst] in Harchs. apply NoDup_remove_2 in Harchs.
      intros H. apply Harchs, in_or_app. now left. }
    rewrite (dict_set_fresh arch [] acc Hfresh).
    inversion Hnames as [|? ? Hmodels Hrest]; subst.
    rewrite (download_arch_collect arch models acc [] w Hfresh Hmodels).
    destruct (collect_arch uvr_path save_path logger arch models w) as [[vs|e] w1]; [|reflexivity].
    cbn [app]. rewrite IH.
    + destruct (collect_all uvr_path save_path logger items w1) as [[rs|e] w2]; [|reflexivity].
      now rewrite <- app_assoc.
    + rewrite keys_app, <- app_assoc. exact Harchs.
    + exact Hrest.
Qed.

Lemma collect_arch_keys (model_arch : string) (models : dict model_data)
  (w w' : world) (vs : dict (option string)) :
  collect_arch uvr_path save_path logger model_arch models w = (Ok vs, w') -> keys vs = keys models.
Proof.
  revert w vs. induction models as [|[name data] models IH]; intros w vs.
  - now intros [= <- <-].
  - cbn [collect_arch]. unfold bind, ret.
    destruct (download_model _ _ _ _ _ _ w) as [[v|e] w1]; [|discriminate].
    destruct (collect_arch uvr_path save_path logger model_arch models w1) as [[vs'|e] w2] eqn:Hrest;
      [|discriminate].
    intros [= <- <-]. cbn [keys map fst]. f_equal. exact (IH _ _ Hrest).
Qed.

Lemma collect_all_keys (items : manifest) (w w' : world)
  (rs : dict (dict (option string))) :
  collect_all uvr_path save_path logger items w = (Ok rs, w') ->
  Forall2 (fun item r => fst r = fst item /\ keys (snd r) = keys (snd item))
    items rs.
Proof.
  revert w rs. induction items as [|[arch models] items IH]; intros w rs.
  - intros [= <- <-]. constructor.
  - cbn [collect_all]. unfold bind, ret.
    destruct (collect_arch uvr_path save_path logger arch models w) as [[vs|e] w1] eqn:Harch;
      [|discriminate].
    destruct (collect_all uvr_path save_path logger items w1) as [[rs'|e] w2] eqn:Hrest; [|discriminate].
    intros [= <- <-]. constructor.
    + split; [reflexivity | exact (collect_arch_keys _ _ _ _ _ Harch)].
    + exact (IH _ _ Hrest).
Qed.

(** The dictionary built by the two loops is the one collected call by
    call, and an error of a call ends both the same way. *)
Lemma download_all_models_collect (models_json : manifest) (w : world) :
  List.NoDup (keys models_json) ->
  Forall (fun item => List.NoDup (keys (snd item))) models_json ->
  download_all_models uvr_path (Some models_json) save_path logger w
  = collect_all uvr_path save_path logger models_json w.
Proof.
  intros Harchs Hnames. unfold download_all_models, bind, ret.
  rewrite (download_archs_collect models_json [] w Harchs Hnames).
  now destruct (collect_all uvr_path save_path logger models_json w) as [[rs|e] w'].
Qed.

(** C7. For a manifest (a dict: no key twice), [download_all_models] does
    what calling [download_model] for each entry in order and keeping each
    value under its architecture and name does; the mapping it returns has
    the architectures of the manifest and, for each, its model names; and
    the value of a call is None exactly when its download failed, the save
    path otherwise. *)
Theorem download_all_models_mapping (models_json : manifest) (w : world) :
  List.NoDup (keys models_json) ->
  Forall (fun item => List.NoDup (keys (snd item))) models_json ->
  download_all_models uvr_path (Some models_json) save_path logger w
  = collect_all uvr_path save_path logger models_json w
  /\ (forall paths w',
        download_all_models uvr_path (Some models_json) save_path logger w
        = (Ok paths, w') ->
        keys paths = keys models_json
        /\ Forall2 (fun item r =>
                      fst r = fst item /\ keys (snd r) = keys (snd item))
             models_json paths)
  /\ (forall model_name model_arch urls w0 w1 v,
        download_model uvr_path model_name model_arch (Some urls) save_path
          logger w0 = (Ok v, w1) ->
        (v = None <-> download_failed uvr_path save_path logger model_name model_arch urls w0)
        /\ (v <> None ->
            v = Some (target_dir uvr_path model_name model_arch save_path))).
Proof.
  intros Harchs Hnames.
  pose proof (download_all_models_collect models_json w Harchs Hnames) as Hrun.
  split; [exact Hrun|]. split.
  - intros paths w' Hret. rewrite Hrun in Hret.
    apply collect_all_keys in Hret as Hshape. split; [|exact Hshape].
    clear -Hshape. induction Hshape as [|item r items rs [Hk _] _ IH];
      [reflexivity|].
    cbn [keys map]. f_equal; [exact Hk | exact IH].
  - intros model_name model_arch urls w0 w1 v.
    apply download_model_value.
Qed.

End AllModels.

Lemma download_all_models_mapping_witness :
  fst (download_all_models "/opt/uvr" (Some AllModelsExample.models_json) None
         false ManifestExample.installed) = Ok AllModelsExample.paths
  /\ keys AllModelsExample.paths = keys AllModelsExample.models_json.
Proof.
  assert (Harchs : List.NoDup (keys AllModelsExample.models_json)).
  { cbn. repeat constructor; cbn; intuition discriminate. }
  assert (Hnames : Forall (fun item => List.NoDup (keys (snd item)))
                     AllModelsExample.models_json).
  { repeat constructor; cbn; intuition discriminate. }
  destruct (download_all_models_mapping "/opt/uvr" None false
              AllModelsExample.models_json ManifestExample.installed
              Harchs Hnames) as (Hrun & Hkeys & _).
  assert (Hret : download_all_models "/opt/uvr"
                   (Some AllModelsExample.models_json) None false
                   ManifestExample.installed
                 = (Ok AllModelsExample.paths,
                    snd (collect_all "/opt/uvr" None false
                           AllModelsExample.models_json
                           ManifestExample.installed))).
  { rewrite Hrun. vm_compute. reflexivity. }
  split; [now rewrite Hret|].
  exact (proj1 (Hkeys _ _ Hret)).
Defined.

(** ** With a save directory that exists, every call returns *)

Section ExistingSavePath.

Variables (uvr_path save_path : string) (logger : bool).

Lemma logged_path_exists (r : level * message) (w : world) (path : string) :
  path_exists (logged logger r w) path = path_exists w path.
Proof. now destruct logger. Qed.

Lemma download_model_returns (model_name model_arch : string)
  (urls : list string) (w : world) :
  path_exists w save_path = true ->
  exists v w',
    download_model uvr_path model_name model_arch (Some urls) (Some save_path)
      logger w = (Ok v, w')
    /\ path_exists w' save_path = true.
Proof.
  intros Hdir.
  assert (Hensure : ensure_dir save_path w = (Ok tt, w)).
  { unfold ensure_dir, bind, lift_result. now rewrite Hdir. }
  rewrite (download_model_run uvr_path model_name model_arch (Some urls)
             (Some save_path) logger urls w w w eq_refl Hensure).
  cbn [target_dir].
  destruct (model_exists_in_package _ _ _ _ _ w).
  - eexists _, _. split; [reflexivity|]. now rewrite logged_path_exists.
  - destruct (download_files _ _ _ _ _ w) as [[[]|e] w2] eqn:Hloop;
      apply download_files_effect in Hloop as (Hcwd & _ & Hg & _);
      eexists _, _; (split; [reflexivity|]);
      rewrite ?logged_path_exists;
      now apply (path_exists_grows w).
Qed.

Lemma collect_arch_returns (model_arch : string) (models : dict model_data)
  (w : world) :
  path_exists w save_path = true ->
  exists vs w',
    collect_arch uvr_path (Some save_path) logger model_arch models w
    = (Ok vs, w')
    /\ path_exists w' save_path = true.
Proof.
  revert w. induction models as [|[name data] models IH]; intros w Hdir.
  - now exists [], w.
  - cbn [collect_arch]. unfold bind, ret.
    destruct (download_model_returns name model_arch (md_model_path data) w
                Hdir) as (v & w1 & -> & Hdir1).
    destruct (IH w1 Hdir1) as (vs & w2 & -> & Hdir2).
    now eexists _, _.
Qed.

Lemma collect_all_returns (items : manifest) (w : world) :
  path_exists w save_path = true ->
  exists rs w',
    collect_all uvr_path (Some save_path) logger items w = (Ok rs, w')
    /\ path_exists w' save_path = true.
Proof.
  revert w. induction items as [|[arch models] items IH]; intros w Hdir.
  - now exists [], w.
  - cbn [collect_all]. unfold bind, ret.
    destruct (collect_arch_returns arch models w Hdir) as (vs & w1 & -> & Hdir1).
    destruct (IH w1 Hdir1) as (rs & w2 & -> & Hdir2).
    now eexists _, _.
Qed.

(** Given a save directory that exists, [download_all_models] returns a
    mapping for every manifest. *)
Lemma download_all_models_returns (models_json : manifest) (w : world) :
  List.NoDup (keys models_json) ->
  Forall (fun item => List.NoDup (keys (snd item))) models_json ->
  path_exists w save_path = true ->
  exists paths w',
    download_all_models uvr_path (Some models_json) (Some save_path) logger w
    = (Ok paths, w').
Proof.
  intros Harchs Hnames Hdir.
  rewrite (download_all_models_collect uvr_path (Some save_path) logger
             models_json w Harchs Hnames).
  destruct (collect_all_returns models_json w Hdir) as (rs & w' & -> & _).
  now eexists _, _.
Qed.

End ExistingSavePath.

(** * Further properties of the module *)

(** ** What a call of [download_model] consists of *)

Lemma download_model_cases (uvr_path model_name model_arch : string)
  (model_path : option (list string)) (save_path : option string)
  (logger : bool) (w : world) :
  download_model uvr_path model_name model_arch model_path save_path logger w
  = match resolve_model_path uvr_path model_name model_arch model_path
            logger w with
    | (Raise e, w0) => (Raise e, w0)
    | (Ok urls, w0) =>
        let save := target_dir uvr_path model_name model_arch save_path in
        match ensure_dir save w0 with
        | (Raise e, w1) => (Raise e, w1)
        | (Ok _, w1) =>
            if model_exists_in_package uvr_path model_name model_arch None
                 (Some (file_names urls)) w1
            then (Ok (Some save),
                  logged logger (INFO, MsgAlreadyExists model_name save) w1)
            else match download_files model_name urls save logger
                         (combine (file_names urls) urls) w1 with
                 | (Ok _, w2) => (Ok (Some save), w2)
                 | (Raise e, w2) =>
                     (Ok None,
                      logged logger (ERROR, MsgFailed model_name urls e) w2)
                 end
        end
    end.
Proof.
  destruct (resolve_model_path uvr_path model_name model_arch model_path
              logger w) as [[urls|e] w0] eqn:Hurls.
  - cbv zeta.
    destruct (ensure_dir (target_dir uvr_path model_name model_arch save_path)
                w0) as [[[]|e] w1] eqn:Hdir.
    + exact (download_model_run uvr_path model_name model_arch model_path
               save_path logger urls w w0 w1 Hurls Hdir).
    + unfold download_model. unfold bind at 1. rewrite Hurls.
      unfold bind at 1.
      fold (target_dir uvr_path model_name model_arch save_path).
      now rewrite Hdir.
  - unfold download_model. unfold bind at 1. now rewrite Hurls.
Qed.

(** ** Making directories only adds directories *)

Lemma mkdir_grows (w : world) (path : string) (t : gmap (list string) node) :
  mkdir w path = Ok t -> grows (w_fs w) t.
Proof.
  unfold mkdir. destruct (path =? "")%string; [discriminate|].
  destruct (drop_trailing_empty (split_on "/" path)) as [|c cs]; [discriminate|].
  destruct (walk_parent w path (c :: cs)) as [cp|]; [|discriminate].
  destruct (is_dot _); [discriminate|].
  rewrite kind_at_snoc.
  destruct (w_fs w !! _) eqn:Hold; [discriminate|].
  intros [= <-]. apply grows_insert. intros n Hn. congruence.
Qed.

Lemma makedirs_rec_grows (fuel : nat) (w : world) (name : string)
  (r : result unit) (t : gmap (list string) node) :
  makedirs_rec fuel w name = (r, t) -> grows (w_fs w) t.
Proof.
  revert name r t. induction fuel as [|fuel IH]; intros name r t.
  - intros [= <- <-]. apply grows_refl.
  - cbn [makedirs_rec].
    destruct (if (snd (split name) =? "")%string
              then split (fst (split name)) else split name) as [head tail].
    assert (Hfinal : forall t0, grows (w_fs w) t0 ->
              match mkdir (set_fs t0 w) name with
              | Ok t' => (Ok tt, t')
              | Raise e => (Raise e, t0)
              end = (r, t) -> grows (w_fs w) t).
    { intros t0 Ht0. destruct (mkdir (set_fs t0 w) name) as [t'|e] eqn:Hmk;
        intros [= <- <-]; [|exact Ht0].
      apply (grows_trans _ t0); [exact Ht0|]. exact (mkdir_grows _ _ _ Hmk). }
    destruct (_ && _).
    + destruct (makedirs_rec fuel w head) as [[[]|e] t0] eqn:Hrec.
      * apply IH in Hrec.
        destruct (tail =? ".")%string; [now intros [= <- <-]|].
        now apply Hfinal.
      * apply IH in Hrec.
        destruct e; try (now intros [= <- <-]).
        destruct (tail =? ".")%string; [now intros [= <- <-]|].
        now apply Hfinal.
    + apply Hfinal, grows_refl.
Qed.

Lemma ensure_dir_grows (save_path : string) (w w1 : world) (r : result unit) :
  ensure_dir save_path w = (r, w1) -> grows (w_fs w) (w_fs w1).
Proof.
  unfold ensure_dir, bind, lift_result.
  destruct (path_exists w save_path); cbn [negb].
  - intros [= <- <-]. apply grows_refl.
  - unfold os_makedirs, makedirs.
    destruct (makedirs_rec _ w save_path) as [r' t] eqn:Hmk.
    intros [= <- <-]. exact (makedirs_rec_grows _ _ _ _ _ Hmk).
Qed.

Lemma isdir_grows (w w' : world) (path : string) :
  grows (w_fs w) (w_fs w') -> w_cwd w = w_cwd w' ->
  isdir w path = true -> isdir w' path = true.
Proof.
  intros Hg Hcwd. unfold isdir, resolve, start_of. rewrite <- Hcwd.
  destruct (path =? "")%string; [discriminate|].
  destruct (walk (w_fs w) _ _) as [c|] eqn:Hw; [|discriminate].
  rewrite (walk_grows _ _ _ _ _ Hg Hw).
  destruct (kind_at (w_fs w) c) as [[x|]|] eqn:Hk; try discriminate.
  destruct (kind_at_grows _ _ c _ Hg Hk) as ([?|] & -> & Hs); [destruct Hs | reflexivity].
Qed.

Lemma logged_fields (logger : bool) (r : level * message) (w : world) :
  w_fs (logged logger r w) = w_fs w
  /\ w_cwd (logged logger r w) = w_cwd w
  /\ w_net (logged logger r w) = w_net w
  /\ w_requests (logged logger r w) = w_requests w.
Proof. now destruct logger. Qed.

(** Whatever a call of [download_model] ends with, the tree has only
    grown and the working directory is the same. *)
Lemma download_model_grows (uvr_path model_name model_arch : string)
  (model_path : option (list string)) (save_path : option string)
  (logger : bool) (w w' : world) (r : result (option string)) :
  download_model uvr_path model_name model_arch model_path save_path logger w
  = (r, w') ->
  grows (w_fs w) (w_fs w') /\ w_cwd w' = w_cwd w.
Proof.
  rewrite download_model_cases.
  destruct (resolve_model_path _ _ _ _ _ w) as [[urls|e] w0] eqn:Hurls;
    apply resolve_model_path_effect in Hurls as (Hfs0 & Hcwd0 & _ & _).
  2:{ intros [= <- <-]. rewrite Hfs0. split; [apply grows_refl | exact Hcwd0]. }
  cbv zeta.
  destruct (ensure_dir _ w0) as [[[]|e] w1] eqn:Hdir;
    pose proof (ensure_dir_grows _ _ _ _ Hdir) as Hg1;
    apply ensure_dir_effect in Hdir as (Hcwd1 & _ & _ & _);
    rewrite Hfs0 in Hg1.
  2:{ intros [= <- <-]. split; [exact Hg1 | congruence]. }
  destruct (model_exists_in_package _ _ _ _ _ w1).
  - intros [= <- <-].
    destruct (logged_fields logger (INFO, MsgAlreadyExists model_name
                (target_dir uvr_path model_name model_arch save_path)) w1)
      as (-> & -> & _). split; [exact Hg1 | congruence].
  - destruct (download_files _ _ _ _ _ w1) as [[[]|e] w2] eqn:Hloop;
      apply download_files_effect in Hloop as (Hcwd2 & _ & Hg2 & _);
      intros [= <- <-].
    + split; [exact (grows_trans _ _ _ Hg1 Hg2) | congruence].
    + destruct (logged_fields logger (ERROR, MsgFailed model_name urls e) w2)
        as (-> & -> & _).
      split; [exact (grows_trans _ _ _ Hg1 Hg2) | congruence].
Qed.

Lemma download_arch_grows (uvr_path model_arch : string)
  (save_path : option string) (logger : bool) (models : dict model_data)
  (paths : dict (dict (option string))) (w w' : world)
  (r : result (dict (dict (option string)))) :
  download_arch uvr_path model_arch save_path logger models paths w = (r, w') ->
  grows (w_fs w) (w_fs w') /\ w_cwd w' = w_cwd w.
Proof.
  revert paths w. induction models as [|[name data] models IH]; intros paths w.
  - intros [= <- <-]. split; [apply grows_refl | reflexivity].
  - cbn [download_arch]. unfold bind at 1.
    destruct (download_model _ _ _ _ _ _ w) as [[v|e] w1] eqn:Hcall;
      apply download_model_grows in Hcall as (Hg1 & Hcwd1).
    2:{ intros [= <- <-]. now split. }
    unfold bind at 1. unfold lift_result at 1.
    destruct (dict_get paths model_arch) as [inner|e].
    2:{ intros [= <- <-]. now split. }
    intros Hrest. apply IH in Hrest as (Hg2 & Hcwd2).
    split; [exact (grows_trans _ _ _ Hg1 Hg2) | congruence].
Qed.

Lemma download_archs_grows (uvr_path : string) (save_path : option string)
  (logger : bool) (items : manifest) (paths : dict (dict (option string)))
  (w w' : world) (r : result (dict (dict (option string)))) :
  download_archs uvr_path save_path logger items paths w = (r, w') ->
  grows (w_fs w) (w_fs w') /\ w_cwd w' = w_cwd w.
Proof.
  revert paths w. induction items as [|[arch models] items IH]; intros paths w.
  - intros [= <- <-]. split; [apply grows_refl | reflexivity].
  - cbn [download_archs]. unfold bind at 1.
    destruct (download_arch _ _ _ _ _ _ w) as [[paths1|e] w1] eqn:Harch;
      apply download_arch_grows in Harch as (Hg1 & Hcwd1).
    2:{ intros [= <- <-]. now split. }
    intros Hrest. apply IH in Hrest as (Hg2 & Hcwd2).
    split; [exact (grows_trans _ _ _ Hg1 Hg2) | congruence].
Qed.

(** X1. Whatever [download_model] ends with (a path, None or an error),
    every path that was a regular file is still one and every path that
    was a directory is still one: nothing is removed and no cleanup is
    made. *)
Theorem download_model_never_removes (uvr_path model_name model_arch : string)
  (model_path : option (list string)) (save_path : option string)
  (logger : bool) (w w' : world) (r : result (option string)) :
  download_model uvr_path model_name model_arch model_path save_path logger w
  = (r, w') ->
  forall path,
    (isfile w path = true -> isfile w' path = true)
    /\ (isdir w path = true -> isdir w' path = true)
    /\ (path_exists w path = true -> path_exists w' path = true).
Proof.
  intros Hcall path. apply download_model_grows in Hcall as (Hg & Hcwd).
  split; [|split].
  - now apply isfile_grows.
  - now apply isdir_grows.
  - now apply path_exists_grows.
Qed.

Lemma download_model_never_removes_witness :
  isfile (snd (download_model "/opt/uvr" "htdemucs" "demucs"
                 (Some FailingDownload.urls) None true FailingDownload.start))
    "/opt/uvr/models_dir/models.json" = true.
Proof.
  apply (download_model_never_removes "/opt/uvr" "htdemucs" "demucs"
           (Some FailingDownload.urls) None true FailingDownload.start _ _
           (surjective_pairing _) "/opt/uvr/models_dir/models.json").
  vm_compute. reflexivity.
Defined.

(** X2. The same for [download_all_models], with or without a manifest
    given and whatever it ends with. *)
Theorem download_all_models_never_removes (uvr_path : string)
  (models_json : option manifest) (save_path : option string) (logger : bool)
  (w w' : world) (r : result (dict (dict (option string)))) :
  download_all_models uvr_path models_json save_path logger w = (r, w') ->
  forall path,
    (isfile w path = true -> isfile w' path = true)
    /\ (isdir w path = true -> isdir w' path = true)
    /\ (path_exists w path = true -> path_exists w' path = true).
Proof.
  intros Hcall path.
  assert (Hg : grows (w_fs w) (w_fs w') /\ w_cwd w' = w_cwd w).
  { unfold download_all_models in Hcall. unfold bind at 1 in Hcall.
    destruct models_json as [m|].
    - unfold ret in Hcall. now apply download_archs_grows in Hcall.
    - unfold bind at 1 in Hcall. destruct logger; cbn [when] in Hcall.
      + unfold raise in Hcall. injection Hcall as <- <-.
        split; [apply grows_refl | reflexivity].
      + unfold ret, lift_result in Hcall.
        destruct (read_json w _) as [doc|e].
        * now apply download_archs_grows in Hcall.
        * injection Hcall as <- <-. split; [apply grows_refl | reflexivity]. }
  destruct Hg as (Hg & Hcwd). split; [|split].
  - now apply isfile_grows.
  - now apply isdir_grows.
  - now apply path_exists_grows.
Qed.

Lemma download_all_models_never_removes_witness :
  isfile (snd (download_all_models "/opt/uvr"
                 (Some AllModelsExample.models_json) None false
                 ManifestExample.installed))
    "/opt/uvr/models_dir/models.json" = true.
Proof.
  apply (download_all_models_never_removes "/opt/uvr"
           (Some AllModelsExample.models_json) None false
           ManifestExample.installed _ _ (surjective_pairing _)
           "/opt/uvr/models_dir/models.json").
  vm_compute. reflexivity.
Defined.

(** ** Requests *)




(** A first URL that urllib refuses for want of a type: None, with an
    error line for the ValueError and no request at all. *)
Lemma download_model_refused_url (uvr_path model_name model_arch : string)
  (url : string) (others : list string) (save_path : option string)
  (logger : bool) (w w1 : world) :
  let save := target_dir uvr_path model_name model_arch save_path in
  has_scheme url = false ->
  ensure_dir save w = (Ok tt, w1) ->
  model_exists_in_package uvr_path model_name model_arch None
    (Some (file_names (url :: others))) w1 = false ->
  download_model uvr_path model_name model_arch (Some (url :: others))
    save_path logger w
  = (Ok None,
     logged logger (ERROR, MsgFailed model_name (url :: others) ValueError) w1)
  /\ w_requests w1 = w_requests w.
Proof.
  intros save Hscheme Hdir Hcheck.
  pose proof (ensure_dir_effect _ _ _ _ Hdir) as (_ & _ & Hreq & _).
  split; [|exact Hreq].
  rewrite download_model_cases. cbn [resolve_model_path]. unfold ret.
  cbv zeta. fold save. rewrite Hdir, Hcheck.
  cbn [file_names map combine]. rewrite download_files_cons.
  now rewrite (urlretrieve_no_scheme _ _ _ Hscheme).
Qed.

(** ** What a returned path means *)

Lemma isfile_logged (logger : bool) (r : level * message) (w : world)
  (path : string) : isfile (logged logger r w) path = isfile w path.
Proof. now destruct logger. Qed.

(** X4. When [download_model] returns a path it is the save directory
    (the one given, or the conventional one); and either no request was
    made, or every URL was requested once, in order, and every expected
    file is a regular file in the returned directory. *)
Theorem download_model_returned_path (uvr_path model_name model_arch : string)
  (urls : list string) (save_path : option string) (logger : bool)
  (w w' : world) (path : string) :
  download_model uvr_path model_name model_arch (Some urls) save_path logger w
  = (Ok (Some path), w') ->
  path = target_dir uvr_path model_name model_arch save_path
  /\ (w_requests w' = w_requests w
      \/ (w_requests w' = w_requests w ++ urls
          /\ forall url, In url urls ->
               isfile w' (join path [last_item (split_on "/" url)]) = true)).
Proof.
  rewrite download_model_cases. cbn [resolve_model_path]. unfold ret. cbv zeta.
  destruct (ensure_dir _ w) as [[[]|e] w1] eqn:Hdir; [|discriminate].
  apply ensure_dir_effect in Hdir as (_ & _ & Hreq1 & _).
  destruct (model_exists_in_package _ _ _ _ _ w1).
  - intros [= <- <-]. split; [reflexivity|]. left.
    destruct (logged_fields logger (INFO, MsgAlreadyExists model_name
                (target_dir uvr_path model_name model_arch save_path)) w1)
      as (_ & _ & _ & ->). exact Hreq1.
  - destruct (download_files _ _ _ _ _ w1) as [[[]|e] w2] eqn:Hloop;
      [|discriminate].
    intros [= <- <-]. split; [reflexivity|]. right.
    apply download_files_effect in Hloop as (_ & _ & _ & Hok).
    destruct (Hok eq_refl) as (Hreq2 & _ & Hfiles). split.
    + rewrite Hreq2, Hreq1, combine_file_names, map_map. cbn [snd].
      now rewrite map_id.
    + intros url Hin. apply (Hfiles _ url).
      rewrite combine_file_names. apply in_map_iff. now exists url.
Qed.

Lemma download_model_returned_path_witness :
  Redownload.save = target_dir "/opt/uvr" "model.onnx" "mdx" None
  /\ (w_requests Redownload.stored = w_requests ManifestExample.installed
      \/ (w_requests Redownload.stored
          = w_requests ManifestExample.installed ++ [Redownload.url]
          /\ forall url, In url [Redownload.url] ->
               isfile Redownload.stored
                 (join Redownload.save [last_item (split_on "/" url)]) = true)).
Proof.
  apply (download_model_returned_path "/opt/uvr" "model.onnx" "mdx"
           [Redownload.url] None false ManifestExample.installed
           Redownload.stored Redownload.save).
  vm_compute. reflexivity.
Defined.

(** X5. Where no save path is given and the name has no dot, a call that
    returned a path for a non-empty list of URLs has left the model
    complete: the same call again returns the same path, requests nothing
    and changes nothing but the log. *)
Theorem download_model_second_call (uvr_path model_name model_arch : string)
  (urls : list string) (logger : bool) (w w' : world) (path : string) :
  strip_name model_name = model_name ->
  urls <> [] ->
  download_model uvr_path model_name model_arch (Some urls) None logger w
  = (Ok (Some path), w') ->
  download_model uvr_path model_name model_arch (Some urls) None logger w'
  = (Ok (Some path),
     logged logger (INFO, MsgAlreadyExists model_name path) w').
Proof.
  intros Hname Hurls Hcall.
  set (save := weights_path uvr_path model_arch model_name).
  assert (Hdone : path = save
                  /\ forall url, In url urls ->
                       isfile w' (join save [last_item (split_on "/" url)])
                       = true).
  { rewrite download_model_cases in Hcall.
    cbn [resolve_model_path target_dir] in Hcall. unfold ret in Hcall.
    cbv zeta in Hcall. fold save in Hcall.
    destruct (ensure_dir save w) as [[[]|e] w1]; [|discriminate].
    destruct (model_exists_in_package _ _ _ _ _ w1) eqn:Hcheck.
    - injection Hcall as <- <-. split; [reflexivity|].
      rewrite model_exists_unfold in Hcheck. cbn [lookup_dir] in Hcheck.
      rewrite Hname in Hcheck. fold save in Hcheck.
      apply andb_true_iff in Hcheck as [Hall _].
      rewrite forallb_forall in Hall.
      intros url Hin. rewrite isfile_logged. apply Hall.
      apply in_map_iff. now exists url.
    - destruct (download_files _ _ _ _ _ w1) as [[[]|e] w2] eqn:Hloop;
        [|discriminate].
      injection Hcall as <- <-. split; [reflexivity|].
      apply download_files_effect in Hloop as (_ & _ & _ & Hok).
      destruct (Hok eq_refl) as (_ & _ & Hfiles).
      intros url Hin. apply (Hfiles _ url).
      rewrite combine_file_names. apply in_map_iff. now exists url. }
  destruct Hdone as [-> Hfiles].
  apply download_model_skips_when_complete; [exact Hname| |exact Hfiles].
  destruct urls as [|url urls']; [contradiction|].
  apply (isfile_in_dir_exists w' _ (last_item (split_on "/" url))).
  - apply weights_path_not_empty.
  - apply last_item_free.
  - apply Hfiles. now left.
Qed.

Lemma download_model_second_call_witness :
  download_model "/opt/uvr" "kim" "mdx" (Some ["http://hub/kim.onnx"]) None
    false SecondCall.stored
  = (Ok (Some "/opt/uvr/models_dir/mdx/weights/kim"),
     logged false
       (INFO, MsgAlreadyExists "kim" "/opt/uvr/models_dir/mdx/weights/kim")
       SecondCall.stored).
Proof.
  apply (download_model_second_call "/opt/uvr" "kim" "mdx"
           ["http://hub/kim.onnx"] false ManifestExample.installed
           SecondCall.stored "/opt/uvr/models_dir/mdx/weights/kim").
  - reflexivity.
  - discriminate.
  - vm_compute. reflexivity.
Defined.

(** ** URLs that name no file *)

Lemma last_item_snoc (l : list string) (x : string) : last_item (l ++ [x]) = x.
Proof. unfold last_item. apply last_last. Qed.

Lemma last_item_trailing_sep (s : string) :
  last_item (split_on "/" (s ++ "/")) = "".
Proof.
  change (s ++ "/")%string with (s ++ String "/" "")%string.
  rewrite split_on_app. apply last_item_snoc.
Qed.

(** A path that ends with a separator, or is empty, names no regular
    file. *)
Lemma isfile_trailing_empty (w : world) (path : string) :
  last_item (split_on "/" path) = "" -> isfile w path = false.
Proof.
  intros Hlast. unfold isfile, resolve.
  destruct (path =? "")%string; [reflexivity|].
  rewrite (app_removelast_last "" (split_on_nonempty "/" path)), walk_app.
  fold (last_item (split_on "/" path)). rewrite Hlast.
  destruct (walk (w_fs w) _ (removelast _)) as [c|e]; [|reflexivity].
  cbn [walk]. destruct (kind_at (w_fs w) c) as [[x|]|] eqn:Hk; try reflexivity.
  cbn. now rewrite Hk.
Qed.

Lemma isfile_join_empty (w : world) (dir : string) :
  isfile w (join dir [""]) = false.
Proof.
  apply isfile_trailing_empty. rewrite join_single. unfold join_step.
  change (startswith "" "/") with false. cbv iota.
  destruct (String.eqb_spec dir "") as [->|Hne]; [reflexivity|].
  cbn [orb]. destruct (endswith dir "/") eqn:Hend.
  - rewrite app_empty_r. apply endswith_app in Hend as [d ->].
    apply last_item_trailing_sep.
  - apply last_item_trailing_sep.
Qed.

(** X6. A URL that ends with a separator gives the empty file name: the
    model is then never found complete and its download never succeeds.
    Once the save directory is there, [download_model] returns None,
    whatever the network answers. *)
Theorem download_model_trailing_slash (uvr_path model_name model_arch : string)
  (urls : list string) (save_path : option string) (logger : bool)
  (url : string) (w w1 : world) :
  ensure_dir (target_dir uvr_path model_name model_arch save_path) w
  = (Ok tt, w1) ->
  In url urls ->
  endswith url "/" = true ->
  exists w',
    download_model uvr_path model_name model_arch (Some urls) save_path
      logger w = (Ok None, w').
Proof.
  intros Hdir Hin Hend.
  assert (Hname : last_item (split_on "/" url) = "").
  { apply endswith_app in Hend as [u ->]. apply last_item_trailing_sep. }
  rewrite download_model_cases. cbn [resolve_model_path]. unfold ret.
  cbv zeta. rewrite Hdir.
  assert (Hcheck : model_exists_in_package uvr_path model_name model_arch None
                     (Some (file_names urls)) w1 = false).
  { rewrite model_exists_unfold. apply andb_false_iff. left.
    apply not_true_is_false. intros Hall. rewrite forallb_forall in Hall.
    specialize (Hall "").
    rewrite isfile_join_empty in Hall. discriminate Hall.
    apply in_map_iff. now exists url. }
  rewrite Hcheck.
  destruct (download_files _ _ _ _ _ w1) as [[[]|e] w2] eqn:Hloop;
    [|eexists; reflexivity].
  apply download_files_effect in Hloop as (_ & _ & _ & Hok).
  destruct (Hok eq_refl) as (_ & _ & Hfiles).
  specialize (Hfiles "" url). rewrite isfile_join_empty in Hfiles.
  discriminate Hfiles.
  rewrite combine_file_names. apply in_map_iff. exists url. now rewrite Hname.
Qed.

Lemma download_model_trailing_slash_witness :
  exists w',
    download_model "/opt/uvr" "kim" "mdx" (Some ["http://hub/kim/"])
      (Some "/store") false Redownload.kept_elsewhere = (Ok None, w').
Proof.
  apply (download_model_trailing_slash "/opt/uvr" "kim" "mdx"
           ["http://hub/kim/"] (Some "/store") false "http://hub/kim/"
           Redownload.kept_elsewhere Redownload.kept_elsewhere).
  - reflexivity.
  - now left.
  - reflexivity.
Defined.

(** ** Errors that are not caught *)

(** X7. With the URLs given, [download_model] raises exactly when making
    the save directory raises, and with the same error: the makedirs call
    is outside the try block. Nothing was requested or logged then. *)
Theorem download_model_raises_iff (uvr_path model_name model_arch : string)
  (urls : list string) (save_path : option string) (logger : bool)
  (e : exn) (w w' : world) :
  download_model uvr_path model_name model_arch (Some urls) save_path logger w
  = (Raise e, w')
  <-> ensure_dir (target_dir uvr_path model_name model_arch save_path) w
      = (Raise e, w')
      /\ w_requests w' = w_requests w /\ w_log w' = w_log w.
Proof.
  rewrite download_model_cases. cbn [resolve_model_path]. unfold ret. cbv zeta.
  destruct (ensure_dir _ w) as [[[]|e1] w1] eqn:Hdir.
  - split; [|intros ([=] & _)].
    destruct (model_exists_in_package _ _ _ _ _ w1); [discriminate|].
    now destruct (download_files _ _ _ _ _ w1) as [[[]|e2] w2].
  - apply ensure_dir_effect in Hdir as (_ & _ & Hreq & Hlog).
    split.
    + intros [= <- <-]. now split.
    + intros [[= <- <-] _]. reflexivity.
Qed.

Lemma download_model_raises_iff_witness :
  download_model "/opt/uvr" "kim" "mdx" (Some ["http://hub/kim.onnx"])
    (Some BlockedDirectory.save) false Redownload.kept_elsewhere
  = (Raise NotADirectoryError, BlockedDirectory.after).
Proof.
  apply (proj2 (download_model_raises_iff "/opt/uvr" "kim" "mdx"
                  ["http://hub/kim.onnx"] (Some BlockedDirectory.save) false
                  NotADirectoryError Redownload.kept_elsewhere
                  BlockedDirectory.after)).
  vm_compute. repeat split; reflexivity.
Defined.

(** ** URLs taken from the manifest *)

(** X8. With no URLs given, [download_model] logs an error line (if there
    is a logger) and goes on exactly as with the URLs the manifest file
    holds for the architecture and the name; an error of reading the
    manifest file leaves the call, with nothing made or requested. *)
Theorem download_model_from_manifest (uvr_path model_name model_arch : string)
  (save_path : option string) (logger : bool) (w : world) :
  let w0 := logged logger (ERROR, MsgNoModelPath model_name) w in
  (forall doc by_name data,
      read_json w (models_json_path uvr_path) = Ok doc ->
      dict_get doc model_arch = Ok by_name ->
      dict_get by_name model_name = Ok data ->
      download_model uvr_path model_name model_arch None save_path logger w
      = download_model uvr_path model_name model_arch
          (Some (md_model_path data)) save_path logger w0)
  /\ (forall e,
        read_json w (models_json_path uvr_path) = Raise e ->
        download_model uvr_path model_name model_arch None save_path logger w
        = (Raise e, w0)).
Proof.
  intros w0.
  assert (Hread : read_json w0 (models_json_path uvr_path)
                  = read_json w (models_json_path uvr_path))
    by (unfold w0; now destruct logger).
  split.
  - intros doc by_name data Hdoc Harch Hname.
    rewrite !download_model_cases.
    cbn [resolve_model_path]. unfold bind, lift_result, ret.
    rewrite log_if_run. fold w0. now rewrite Hread, Hdoc, Harch, Hname.
  - intros e Herr. rewrite download_model_cases.
    cbn [resolve_model_path]. unfold bind, lift_result, ret.
    rewrite log_if_run. fold w0. now rewrite Hread, Herr.
Qed.

Lemma download_model_from_manifest_witness :
  download_model "/opt/uvr" "htdemucs" "demucs" None None false
    ManifestExample.installed
  = download_model "/opt/uvr" "htdemucs" "demucs"
      (Some ["http://hub/htdemucs.th"]) None false
      (logged false (ERROR, MsgNoModelPath "htdemucs")
         ManifestExample.installed).
Proof.
  apply (proj1 (download_model_from_manifest "/opt/uvr" "htdemucs" "demucs"
                  None false ManifestExample.installed)
           ManifestExample.doc
           [("htdemucs", mk_model_data ["http://hub/htdemucs.th"] [])]
           (mk_model_data ["http://hub/htdemucs.th"] [])).
  - vm_compute. reflexivity.
  - reflexivity.
  - reflexivity.
Defined.

(** ** The values of the mapping *)

Lemma collect_arch_values (uvr_path : string) (save_path : option string)
  (logger : bool) (model_arch : string) (models : dict model_data)
  (w w' : world) (vs : dict (option string)) :
  collect_arch uvr_path save_path logger model_arch models w = (Ok vs, w') ->
  forall name v, In (name, v) vs ->
    v = None \/ v = Some (target_dir uvr_path name model_arch save_path).
Proof.
  revert w vs. induction models as [|[n data] models IH]; intros w vs.
  - intros [= <- <-] name v [].
  - cbn [collect_arch]. unfold bind, ret.
    destruct (download_model _ _ _ _ _ _ w) as [[v0|e] w1] eqn:Hcall;
      [|discriminate].
    destruct (collect_arch _ _ _ _ models w1) as [[vs'|e] w2] eqn:Hrest;
      [|discriminate].
    intros [= <- <-] name v [[= <- <-]|Hin].
    + apply download_model_value in Hcall as [_ Hsome].
      destruct v0 as [p|]; [right; apply Hsome; discriminate | now left].
    + exact (IH _ _ Hrest name v Hin).
Qed.

Lemma collect_all_values (uvr_path : string) (save_path : option string)
  (logger : bool) (items : manifest) (w w' : world)
  (rs : dict (dict (option string))) :
  collect_all uvr_path save_path logger items w = (Ok rs, w') ->
  forall arch by_name name v,
    In (arch, by_name) rs -> In (name, v) by_name ->
    v = None \/ v = Some (target_dir uvr_path name arch save_path).
Proof.
  revert w rs. induction items as [|[a models] items IH]; intros w rs.
  - intros [= <- <-] arch by_name name v [].
  - cbn [collect_all]. unfold bind, ret.
    destruct (collect_arch _ _ _ a models w) as [[vs|e] w1] eqn:Harch;
      [|discriminate].
    destruct (collect_all _ _ _ items w1) as [[rs'|e] w2] eqn:Hrest;
      [|discriminate].
    intros [= <- <-] arch by_name name v [[= <- <-]|Hin] Hv.
    + exact (collect_arch_values _ _ _ _ _ _ _ _ Harch name v Hv).
    + exact (IH _ _ Hrest arch by_name name v Hin Hv).
Qed.

(** X9. Every value of the mapping [download_all_models] returns is None
    or the save directory of its model: the one save path given, the same
    for every model, or else the conventional directory of the
    architecture and the name. *)
Theorem download_all_models_values (uvr_path : string) (models_json : manifest)
  (save_path : option string) (logger : bool) (w w' : world)
  (paths : dict (dict (option string))) :
  List.NoDup (keys models_json) ->
  Forall (fun item => List.NoDup (keys (snd item))) models_json ->
  download_all_models uvr_path (Some models_json) save_path logger w
  = (Ok paths, w') ->
  forall arch by_name name v,
    In (arch, by_name) paths -> In (name, v) by_name ->
    v = None
    \/ v = Some (match save_path with
                 | Some p => p
                 | None => weights_path uvr_path arch name
                 end).
Proof.
  intros Harchs Hnames Hret.
  rewrite (download_all_models_collect uvr_path save_path logger models_json w
             Harchs Hnames) in Hret.
  intros arch by_name name v Hin Hv.
  destruct (collect_all_values _ _ _ _ _ _ _ Hret arch by_name name v Hin Hv)
    as [->| ->]; [now left | right].
  now destruct save_path.
Qed.

Lemma download_all_models_values_witness :
  Some "/opt/uvr/models_dir/mdx/weights/kim" = None
  \/ Some "/opt/uvr/models_dir/mdx/weights/kim"
     = Some (weights_path "/opt/uvr" "mdx" "kim").
Proof.
  apply (download_all_models_values "/opt/uvr" AllModelsExample.models_json
           None false ManifestExample.installed
           (snd (download_all_models "/opt/uvr"
                   (Some AllModelsExample.models_json) None false
                   ManifestExample.installed))
           AllModelsExample.paths)
    with (by_name := [("kim", Some "/opt/uvr/models_dir/mdx/weights/kim")]).
  - cbn. repeat constructor; cbn; intuition discriminate.
  - repeat constructor; cbn; intuition discriminate.
  - vm_compute. reflexivity.
  - right. now left.
  - now left.
Defined.

(** ** What [get_model_path] finds *)

Lemma isdir_path_exists (w : world) (path : string) :
  isdir w path = true -> path_exists w path = true.
Proof.
  unfold isdir, path_exists. now destruct (resolve w path).
Qed.

Lemma isfile_path_exists (w : world) (path : string) :
  isfile w path = true -> path_exists w path = true.
Proof.
  unfold isfile, path_exists. now destruct (resolve w path).
Qed.

(** X10. For a name without an extension and a directory that holds a
    regular file whose base name is the name, [get_model_path] returns a
    path: it is None only where no entry of the directory is such a
    file. *)
Theorem get_model_path_finds_file (model_name model_dir file : string)
  (files : list string) (w : world) :
  snd (splitext model_name) = "" ->
  listdir w model_dir = Ok files ->
  In file files ->
  isfile w (join model_dir [file]) = true ->
  fst (splitext file) = model_name ->
  exists path, get_model_path model_name model_dir w = Ok (Some path).
Proof.
  intros Hext Hls Hin Hfile Hbase.
  assert (Hdir : path_exists w model_dir = true).
  { unfold listdir in Hls. unfold path_exists.
    now destruct (resolve w model_dir). }
  unfold get_model_path. rewrite Hdir. cbn [negb].
  destruct (splitext model_name) as [base_name extension]. cbn [snd] in Hext.
  subst extension. cbn [String.eqb negb]. cbv zeta.
  destruct (isdir w (join model_dir [model_name])) eqn:Hsub.
  - destruct (isdir_listdir w _ Hsub) as [sub ->].
    destruct (first_model_file _ sub) as [p|]; [now exists p|].
    rewrite Hls.
    destruct (scan_dir w model_name model_dir files) as [p|] eqn:Hscan;
      [now exists p|].
    destruct (scan_dir_none _ _ _ _ Hscan file Hin); congruence.
  - rewrite Hls.
    destruct (scan_dir w model_name model_dir files) as [p|] eqn:Hscan;
      [now exists p|].
    destruct (scan_dir_none _ _ _ _ Hscan file Hin); congruence.
Qed.

Lemma get_model_path_finds_file_witness :
  exists path, get_model_path "flat" "/store" Examples.store_world
               = Ok (Some path).
Proof.
  apply (get_model_path_finds_file "flat" "/store" "flat.pth"
           (entries Examples.store_tree ["store"]) Examples.store_world).
  - reflexivity.
  - vm_compute. reflexivity.
  - vm_compute. tauto.
  - vm_compute. reflexivity.
  - reflexivity.
Defined.

(** ** Names and their first dot *)

(** X11. Without a save path, [model_exists_in_package] answers the same
    for a name and for that name followed by a dot and anything: names
    that agree up to their first dot are one model to it. *)
Theorem model_exists_same_up_to_first_dot (uvr_path base rest : string)
  (model_arch : string) (files : option (list string)) (w : world) :
  has_char "." base = false ->
  model_exists_in_package uvr_path (base ++ String "." rest) model_arch None
    files w
  = model_exists_in_package uvr_path base model_arch None files w.
Proof.
  intros Hbase. unfold model_exists_in_package.
  rewrite (strip_name_first_dot base rest Hbase).
  replace (strip_name base) with base; [reflexivity|].
  unfold strip_name. now rewrite (split_on_free _ _ Hbase).
Qed.

Lemma model_exists_same_up_to_first_dot_witness :
  model_exists_in_package "/opt/uvr" "a.b.onnx" "mdx" None None
    FirstDot.with_a
  = model_exists_in_package "/opt/uvr" "a" "mdx" None None FirstDot.with_a.
Proof.
  apply (model_exists_same_up_to_first_dot "/opt/uvr" "a" "b.onnx" "mdx" None
           FirstDot.with_a).
  reflexivity.
Defined.

(** ** The manifest of [download_all_models] *)

(** X12. With no manifest given, [download_all_models] raises NameError
    as soon as there is a logger: the message of line 155 names
    [model_name], which is not bound there. Nothing is read, made or
    requested. With no logger it does what it does on the manifest read
    from the manifest file, and raises the error of reading it. *)
Theorem download_all_models_without_manifest (uvr_path : string)
  (save_path : option string) (w : world) :
  download_all_models uvr_path None save_path true w
  = (Raise (NameError "model_name"), w)
  /\ (forall doc,
        read_json w (models_json_path uvr_path) = Ok doc ->
        download_all_models uvr_path None save_path false w
        = download_all_models uvr_path (Some doc) save_path false w)
  /\ (forall e,
        read_json w (models_json_path uvr_path) = Raise e ->
        download_all_models uvr_path None save_path false w = (Raise e, w)).
Proof.
  split; [reflexivity|]. split.
  - intros doc Hdoc. unfold download_all_models, bind, when, ret, lift_result.
    now rewrite Hdoc.
  - intros e Herr. unfold download_all_models, bind, when, ret, lift_result.
    now rewrite Herr.
Qed.

Lemma download_all_models_without_manifest_witness :
  download_all_models "/opt/uvr" None None false ManifestExample.installed
  = download_all_models "/opt/uvr" (Some ManifestExample.doc) None false
      ManifestExample.installed.
Proof.
  apply (proj1 (proj2 (download_all_models_without_manifest "/opt/uvr" None
                         ManifestExample.installed))).
  vm_compute. reflexivity.
Defined.

(** ** The logger changes the log only *)

Lemma set_log_same (w : world) : set_log (w_log w) w = w.
Proof. now destruct w. Qed.

Lemma files_present_set_log (l : list (level * message)) (w : world)
  (dir : string) (files : list string) :
  files_present (set_log l w) dir files = files_present w dir files.
Proof.
  induction files as [|file files IH]; [reflexivity|].
  cbn [files_present]. rewrite IH. reflexivity.
Qed.

Lemma model_exists_set_log (uvr_path model_name model_arch : string)
  (save_path : option string) (files : option (list string))
  (l : list (level * message)) (w : world) :
  model_exists_in_package uvr_path model_name model_arch save_path files
    (set_log l w)
  = model_exists_in_package uvr_path model_name model_arch save_path files w.
Proof.
  unfold model_exists_in_package.
  destruct files as [fl|]; [rewrite files_present_set_log|]; reflexivity.
Qed.

Lemma makedirs_rec_set_log (l : list (level * message)) (fuel : nat)
  (w : world) (name : string) :
  makedirs_rec fuel (set_log l w) name = makedirs_rec fuel w name.
Proof.
  revert name. induction fuel as [|fuel IH]; intros name; [reflexivity|].
  cbn [makedirs_rec].
  destruct (if (snd (split name) =? "")%string
            then split (fst (split name)) else split name) as [head tail].
  rewrite IH. reflexivity.
Qed.

Lemma ensure_dir_set_log (l : list (level * message)) (save_path : string)
  (w w1 : world) (r : result unit) :
  ensure_dir save_path w = (r, w1) ->
  ensure_dir save_path (set_log l w) = (r, set_log l w1).
Proof.
  unfold ensure_dir, bind, lift_result.
  change (path_exists (set_log l w) save_path) with (path_exists w save_path).
  destruct (path_exists w save_path); cbn [negb].
  - now intros [= <- <-].
  - unfold os_makedirs, makedirs. rewrite makedirs_rec_set_log.
    destruct (makedirs_rec _ w save_path) as [r' t]. now intros [= <- <-].
Qed.

Lemma urlretrieve_set_log (l : list (level * message)) (url filename : string)
  (w w1 : world) (r : result unit) :
  urlretrieve url filename w = (r, w1) ->
  urlretrieve url filename (set_log l w) = (r, set_log l w1).
Proof.
  unfold urlretrieve.
  destruct (has_scheme url); cbn [negb]; [|now intros [= <- <-]].
  change (w_net (set_log l w)) with (w_net w).
  change (w_requests (set_log l w)) with (w_requests w).
  change (write_file (add_request url (set_log l w)) filename)
    with (write_file (add_request url w) filename).
  destruct (w_net w (w_requests w) url) as [c|c|].
  - destruct (write_file (add_request url w) filename c);
      now intros [= <- <-].
  - destruct (write_file (add_request url w) filename c);
      now intros [= <- <-].
  - now intros [= <- <-].
Qed.

Lemma set_log_logged (logger : bool) (l : list (level * message))
  (r : level * message) (w : world) :
  set_log l (logged logger r w) = set_log l w.
Proof. now destruct logger. Qed.

Lemma download_files_set_log (model_name : string) (model_path : list string)
  (save_path : string) (logger : bool) (l : list (level * message))
  (todo : list (string * string)) (w w' : world) (r : result unit) :
  download_files model_name model_path save_path logger todo w = (r, w') ->
  download_files model_name model_path save_path false todo (set_log l w)
  = (r, set_log l w').
Proof.
  revert w. induction todo as [|[file url] todo IH]; intros w.
  - now intros [= <- <-].
  - rewrite !download_files_cons.
    destruct (urlretrieve url _ w) as [[[]|e] w1] eqn:Hget;
      rewrite (urlretrieve_set_log l _ _ _ _ _ Hget).
    + intros Hrest. apply IH in Hrest. cbn [logged].
      now rewrite set_log_logged in Hrest.
    + now intros [= <- <-].
Qed.

Lemma resolve_model_path_set_log (uvr_path model_name model_arch : string)
  (model_path : option (list string)) (logger : bool)
  (l : list (level * message)) (w w0 : world) (r : result (list string)) :
  resolve_model_path uvr_path model_name model_arch model_path logger w
  = (r, w0) ->
  resolve_model_path uvr_path model_name model_arch model_path false
    (set_log l w) = (r, set_log l w0).
Proof.
  destruct model_path as [urls|]; cbn [resolve_model_path].
  - now intros [= <- <-].
  - unfold bind. rewrite !log_if_run. unfold lift_result. cbn [logged].
    change (read_json (set_log l w) (models_json_path uvr_path))
      with (read_json w (models_json_path uvr_path)).
    replace (read_json (logged logger (ERROR, MsgNoModelPath model_name) w)
               (models_json_path uvr_path))
      with (read_json w (models_json_path uvr_path))
      by now destruct logger.
    destruct (read_json w _) as [doc|e];
      [|intros [= <- <-]; now rewrite set_log_logged].
    destruct (dict_get doc model_arch) as [by_name|e];
      [|intros [= <- <-]; now rewrite set_log_logged].
    destruct (dict_get by_name model_name) as [data|e];
      intros [= <- <-]; now rewrite set_log_logged.
Qed.

(** X13. The logger of [download_model] changes the log and nothing else:
    the call without a logger ends with the same result, the same tree
    and the same requests, and leaves the log as it was. *)
Theorem download_model_without_logger (uvr_path model_name model_arch : string)
  (model_path : option (list string)) (save_path : option string)
  (logger : bool) (w w' : world) (r : result (option string)) :
  download_model uvr_path model_name model_arch model_path save_path logger w
  = (r, w') ->
  download_model uvr_path model_name model_arch model_path save_path false w
  = (r, set_log (w_log w) w').
Proof.
  intros Hcall. rewrite <- (set_log_same w) at 1.
  set (l := w_log w). clearbody l.
  rewrite download_model_cases in Hcall. rewrite download_model_cases.
  destruct (resolve_model_path _ _ _ _ logger w) as [[urls|e] w0] eqn:Hurls;
    rewrite (resolve_model_path_set_log _ _ _ _ _ l _ _ _ Hurls).
  2:{ now injection Hcall as <- <-. }
  cbv zeta in *.
  destruct (ensure_dir _ w0) as [[[]|e] w1] eqn:Hdir;
    rewrite (ensure_dir_set_log l _ _ _ _ Hdir).
  2:{ now injection Hcall as <- <-. }
  rewrite model_exists_set_log.
  destruct (model_exists_in_package _ _ _ _ _ w1).
  - injection Hcall as <- <-. cbn [logged]. now rewrite set_log_logged.
  - destruct (download_files _ _ _ logger _ w1) as [[[]|e] w2] eqn:Hloop;
      rewrite (download_files_set_log _ _ _ _ l _ _ _ _ Hloop);
      injection Hcall as <- <-; cbn [logged]; now rewrite ?set_log_logged.
Qed.

Lemma download_model_without_logger_witness :
  download_model "/opt/uvr" "htdemucs" "demucs" (Some FailingDownload.urls)
    None false FailingDownload.start
  = (fst (download_model "/opt/uvr" "htdemucs" "demucs"
            (Some FailingDownload.urls) None true FailingDownload.start),
     set_log (w_log FailingDownload.start)
       (snd (download_model "/opt/uvr" "htdemucs" "demucs"
               (Some FailingDownload.urls) None true FailingDownload.start))).
Proof.
  apply (download_model_without_logger "/opt/uvr" "htdemucs" "demucs"
           (Some FailingDownload.urls) None true FailingDownload.start).
  apply surjective_pairing.
Defined.

(** ** An error in the middle of [download_all_models] *)

Lemma collect_arch_stops (uvr_path : string) (save_path : option string)
  (logger : bool) (model_arch model_name : string) (data : model_data)
  (before after : dict model_data) (e : exn) (w w2 w3 : world)
  (vs : dict (option string)) :
  collect_arch uvr_path save_path logger model_arch before w = (Ok vs, w2) ->
  download_model uvr_path model_name model_arch (Some (md_model_path data))
    save_path logger w2 = (Raise e, w3) ->
  collect_arch uvr_path save_path logger model_arch
    (before ++ (model_name, data) :: after) w = (Raise e, w3).
Proof.
  revert w vs. induction before as [|[n d] before IH]; intros w vs.
  - intros [= <- <-] Hcall. cbn [app collect_arch]. unfold bind.
    now rewrite Hcall.
  - cbn [app collect_arch]. unfold bind, ret.
    destruct (download_model _ _ _ _ _ _ w) as [[v|e0] w1]; [|discriminate].
    destruct (collect_arch _ _ _ _ before w1) as [[vs'|e0] w2'] eqn:Hrest;
      [|discriminate].
    intros [= <- <-] Hcall. now rewrite (IH _ _ Hrest Hcall).
Qed.

Lemma collect_all_stops (uvr_path : string) (save_path : option string)
  (logger : bool) (model_arch : string) (models : dict model_data)
  (before after : manifest) (e : exn) (w w1 w3 : world)
  (rs : dict (dict (option string))) :
  collect_all uvr_path save_path logger before w = (Ok rs, w1) ->
  collect_arch uvr_path save_path logger model_arch models w1 = (Raise e, w3) ->
  collect_all uvr_path save_path logger (before ++ (model_arch, models) :: after)
    w = (Raise e, w3).
Proof.
  revert w rs. induction before as [|[a ms] before IH]; intros w rs.
  - intros [= <- <-] Harch. cbn [app collect_all]. unfold bind.
    now rewrite Harch.
  - cbn [app collect_all]. unfold bind, ret.
    destruct (collect_arch _ _ _ a ms w) as [[vs|e0] w0]; [|discriminate].
    destruct (collect_all _ _ _ before w0) as [[rs'|e0] w1'] eqn:Hrest;
      [|discriminate].
    intros [= <- <-] Harch. now rewrite (IH _ _ Hrest Harch).
Qed.

(** X15. An error that a call of [download_model] does not catch leaves
    [download_all_models] at once, with that error: the world is the one
    the failing call left, so no later model is tried, and the paths of
    the models done before are not returned. *)
Theorem download_all_models_stops_at_error (uvr_path : string)
  (save_path : option string) (logger : bool)
  (archs_before archs_after : manifest)
  (model_arch model_name : string) (data : model_data)
  (models_before models_after : dict model_data) (e : exn)
  (w w1 w2 w3 : world) (done_archs : dict (dict (option string)))
  (done_models : dict (option string)) :
  let models_json : manifest :=
    archs_before
    ++ (model_arch, models_before ++ (model_name, data) :: models_after)
       :: archs_after in
  List.NoDup (keys models_json) ->
  Forall (fun item => List.NoDup (keys (snd item))) models_json ->
  collect_all uvr_path save_path logger archs_before w = (Ok done_archs, w1) ->
  collect_arch uvr_path save_path logger model_arch models_before w1
  = (Ok done_models, w2) ->
  download_model uvr_path model_name model_arch (Some (md_model_path data))
    save_path logger w2 = (Raise e, w3) ->
  download_all_models uvr_path (Some models_json) save_path logger w
  = (Raise e, w3).
Proof.
  intros models_json Harchs Hnames Hbefore Hmodels Hcall.
  rewrite (download_all_models_collect uvr_path save_path logger models_json w
             Harchs Hnames).
  apply (collect_all_stops _ _ _ _ _ _ _ _ _ _ _ _ Hbefore).
  exact (collect_arch_stops _ _ _ _ _ _ _ _ _ _ _ _ _ Hmodels Hcall).
Qed.

Lemma download_all_models_stops_at_error_witness :
  download_all_models "/opt/uvr" (Some BlockedArch.models_json) None false
    BlockedArch.start
  = (Raise NotADirectoryError, BlockedArch.stopped).
Proof.
  apply (download_all_models_stops_at_error "/opt/uvr" None false
           [("demucs", [("htdemucs",
                         mk_model_data ["http://hub/htdemucs.th"] [])])]
           [("vr", [("late", mk_model_data ["http://hub/late.pth"] [])])]
           "mdx" "kim" (mk_model_data ["http://hub/kim.onnx"] []) [] []
           NotADirectoryError BlockedArch.start BlockedArch.first_done
           BlockedArch.first_done BlockedArch.stopped
           [("demucs",
             [("htdemucs", Some "/opt/uvr/models_dir/demucs/weights/htdemucs")])]
           []).
  - cbn. repeat constructor; cbn; intuition discriminate.
  - repeat constructor; cbn; intuition discriminate.
  - vm_compute. reflexivity.
  - reflexivity.
  - vm_compute. reflexivity.
Defined.
